(** * Sales dashboard (dashboard_streamlit_vendas.py): the metrics pipeline

    A shallow embedding of the data pipeline of the Streamlit dashboard:
    the dataset loader [carregar_dados] with its derived columns, the global
    sidebar filter [df_filtrado], the aggregator
    [calcular_metricas_principais], the per-category summary
    [resumo_categoria] and the top-level control flow of the script.

    Conventions of the embedding.
    - A pandas [float64] cell is an IEEE-754 binary64 number, taken from the
      executable specification [SpecFloat] (53 bits of precision, round to
      nearest even, signed zeros, infinities, a single NaN).
    - A pandas [int64] cell is a [Z]; reductions over such a column wrap
      around as the library does.  The year, month, quarter and quantity
      columns are [int64], the monetary and ratio columns [float64].
    - A DataFrame is the list of its rows in index order; a Series is the
      list of its cells.  Index labels are not modelled.
    - Reductions follow the libraries: [Series.sum] and [Series.mean] use
      numpy's pairwise summation, the sums and means of a [groupby] are
      compensated (Kahan) sums.
    - A Python exception is a value of an explicit outcome type; Streamlit
      calls are recorded in a trace, in the order in which they are made.
      One run of the script is modelled; the memoisation of the loader
      across runs and what a page body does inside are not. *)

From Stdlib Require Import ZArith QArith List String Ascii Bool Lia Permutation.
From Stdlib Require Import SpecFloat.
From Stdlib Require Import Sorted.
From Stdlib Require DecimalString.
Import ListNotations.

Local Open Scope Z_scope.

(* ===================================================================== *)
(** ** binary64 arithmetic, as numpy performs it *)
(* ===================================================================== *)

Module Float64.

Definition prec : Z := 53.
Definition emax : Z := 1024.

Definition float64 : Type := spec_float.

Definition add : float64 -> float64 -> float64 := SFadd prec emax.
Definition sub : float64 -> float64 -> float64 := SFsub prec emax.
Definition mul : float64 -> float64 -> float64 := SFmul prec emax.
Definition div : float64 -> float64 -> float64 := SFdiv prec emax.

(** Conversion of an integer (a literal such as [100], or an [int64]
    cell promoted to [float64]): correctly rounded. *)
Definition of_Z (n : Z) : float64 := binary_normalize prec emax n 0 false.

Definition zero : float64 := S754_zero false.
Definition nan : float64 := S754_nan.
Definition pinf : float64 := S754_infinity false.
Definition ninf : float64 := S754_infinity true.

Definition isnan (x : float64) : bool :=
  match x with S754_nan => true | _ => false end.

Definition isinf (x : float64) : bool :=
  match x with S754_infinity _ => true | _ => false end.

Definition is_zero (x : float64) : bool :=
  match x with S754_zero _ => true | _ => false end.

Definition is_finite (x : float64) : bool :=
  match x with S754_zero _ | S754_finite _ _ _ => true | _ => false end.

(** The sign bit ([numpy.signbit]); the single NaN of the model carries
    none. *)
Definition signbit (x : float64) : bool :=
  match x with
  | S754_zero s | S754_infinity s | S754_finite s _ _ => s
  | S754_nan => false
  end.

(** [x == y] on floats: NaN differs from everything, [-0.0 == 0.0]. *)
Definition eqb : float64 -> float64 -> bool := SFeqb.

(** [numpy.rint]: the nearest integer, ties to even; the sign of a zero
    result is the sign of the argument. *)
Definition rint (x : float64) : float64 :=
  match x with
  | S754_finite s m e =>
      if 0 <=? e then x
      else
        let '(mrs, _) := shr (shr_record_of_loc (Zpos m) loc_Exact) e (- e) in
        let n := round_nearest_even (shr_m mrs) (loc_of_shr_record mrs) in
        binary_normalize prec emax (cond_Zopp s n) 0 s
  | _ => x
  end.

(** [numpy.round(x, decimals)] for [decimals > 0]: scale by the power of
    ten, [rint], scale back. *)
Definition round (x : float64) (decimals : Z) : float64 :=
  let f := of_Z (10 ^ decimals) in
  div (rint (mul x f)) f.

(** A decimal literal [n / 10^k] (for instance [0.125] is
    [of_decimal 125 3]); exact whenever the literal is representable. *)
Definition of_decimal (n : Z) (k : Z) : float64 := div (of_Z n) (of_Z (10 ^ k)).

End Float64.

Import Float64.

(* ===================================================================== *)
(** ** Cells, rows and tables *)
(* ===================================================================== *)

(** [str(n)] for a Python integer. *)
Definition str_int (n : Z) : string :=
  DecimalString.NilZero.string_of_int (Z.to_int n).

(** A parsed [datetime64] value; the calendar fields are all the pipeline
    reads. *)
Record Timestamp : Type := mkTimestamp {
  year : Z;
  month : Z;
  day : Z
}.

(** One line of [dataset_vendas_completo.csv] after [pd.to_datetime] on the
    [data] column; the date of an empty cell is [NaT], here [None]. *)
Record RawRow : Type := mkRawRow {
  raw_data : option Timestamp;
  raw_ano : Z;
  raw_mes : Z;
  raw_trimestre : Z;
  raw_regiao : string;
  raw_produto : string;
  raw_categoria : string;
  raw_quantidade_vendida : Z;
  raw_preco_unitario : float64;
  raw_custo_unitario : float64;
  raw_faturamento : float64;
  raw_lucro_bruto : float64;
  raw_margem_lucro : float64;
  raw_ticket_medio : float64
}.

(** A row of the loaded table: the CSV columns and the four derived ones. *)
Record Row : Type := mkRow {
  base : RawRow;
  ano_mes : string;
  semestre : string;
  ano_semestre : string;
  roi : float64
}.

Definition data (r : Row) := raw_data (base r).
Definition ano (r : Row) := raw_ano (base r).
Definition mes (r : Row) := raw_mes (base r).
Definition trimestre (r : Row) := raw_trimestre (base r).
Definition regiao (r : Row) := raw_regiao (base r).
Definition produto (r : Row) := raw_produto (base r).
Definition categoria (r : Row) := raw_categoria (base r).
Definition quantidade_vendida (r : Row) := raw_quantidade_vendida (base r).
Definition preco_unitario (r : Row) := raw_preco_unitario (base r).
Definition custo_unitario (r : Row) := raw_custo_unitario (base r).
Definition faturamento (r : Row) := raw_faturamento (base r).
Definition lucro_bruto (r : Row) := raw_lucro_bruto (base r).
Definition margem_lucro (r : Row) := raw_margem_lucro (base r).
Definition ticket_medio (r : Row) := raw_ticket_medio (base r).

Definition Series (A : Type) : Type := list A.
Definition DataFrame : Type := list Row.

(** [df[c]]: the column [c] of a table. *)
Definition col {R A : Type} (c : R -> A) (df : list R) : Series A := map c df.

(* ===================================================================== *)
(** ** Feature derivation (carregar_dados, lines 72-75) *)
(* ===================================================================== *)

Local Open Scope string_scope.

(** [df['data'].dt.to_period('M').astype(str)]: ["%Y-%m"], ["NaT"] for a
    missing date. *)
Definition pad2 (n : Z) : string :=
  if (n <? 10)%Z then "0" ++ str_int n else str_int n.

Definition period_M_str (d : option Timestamp) : string :=
  match d with
  | Some t => str_int (year t) ++ "-" ++ pad2 (month t)
  | None => "NaT"
  end.

(** [lambda x: 'S1' if x <= 6 else 'S2'] applied to [dt.month]; the month of
    [NaT] is NaN, and [NaN <= 6] is false. *)
Definition semestre_of (d : option Timestamp) : string :=
  match d with
  | Some t => if (month t <=? 6)%Z then "S1" else "S2"
  | None => "S2"
  end.

(** [df['ano'].astype(str) + '-' + df['semestre']]. *)
Definition ano_semestre_of (a : Z) (s : string) : string :=
  str_int a ++ "-" ++ s.

(** [((lucro_bruto / (custo_unitario * quantidade_vendida)) * 100).round(2)];
    the [int64] quantity is promoted to [float64] by the product. *)
Definition roi_of (lucro custo : float64) (quantidade : Z) : float64 :=
  round (mul (div lucro (mul custo (of_Z quantidade))) (of_Z 100)) 2.

Definition derive (raw : RawRow) : Row :=
  let s := semestre_of (raw_data raw) in
  {| base := raw;
     ano_mes := period_M_str (raw_data raw);
     semestre := s;
     ano_semestre := ano_semestre_of (raw_ano raw) s;
     roi := roi_of (raw_lucro_bruto raw) (raw_custo_unitario raw)
                   (raw_quantidade_vendida raw) |}.

Definition add_features (rows : list RawRow) : DataFrame := map derive rows.

(* ===================================================================== *)
(** ** Series operations used by the script *)
(* ===================================================================== *)

(** [s.isin(values)]: one boolean per cell. *)
Definition isin {A : Type} (eqb : A -> A -> bool) (s : Series A)
    (values : list A) : Series bool :=
  map (fun x => existsb (eqb x) values) s.

(** [s == v]: one boolean per cell. *)
Definition eq_scalar {A : Type} (eqb : A -> A -> bool) (s : Series A) (v : A)
    : Series bool :=
  map (fun x => eqb x v) s.

(** [a & b] on two boolean Series over the same index. *)
Definition mask_and (a b : Series bool) : Series bool :=
  map (fun p => andb (fst p) (snd p)) (combine a b).

(** [df[mask]]: the rows whose mask cell is [True], in index order.  The
    masks of the script are computed from [df] itself and have its length. *)
Fixpoint getitem_mask {R : Type} (df : list R) (mask : Series bool) : list R :=
  match df, mask with
  | r :: df', b :: mask' =>
      if b then r :: getitem_mask df' mask' else getitem_mask df' mask'
  | _, _ => []
  end.

(** [s.unique()]: the distinct values in order of first appearance. *)
Fixpoint unique {A : Type} (eqb : A -> A -> bool) (s : Series A) : list A :=
  match s with
  | [] => []
  | x :: s' => x :: filter (fun y => negb (eqb y x)) (unique eqb s')
  end.

(** [sorted(xs)]: a stable ascending sort. *)
Fixpoint insert_sorted {A : Type} (leb : A -> A -> bool) (x : A) (l : list A)
    : list A :=
  match l with
  | [] => [x]
  | y :: l' => if leb x y then x :: l else y :: insert_sorted leb x l'
  end.

Definition sorted {A : Type} (leb : A -> A -> bool) (l : list A) : list A :=
  fold_right (insert_sorted leb) [] l.

(** The sum of a [float64] array as numpy's [add.reduce] computes it
    (pairwise summation).  Fewer than 8 cells are accumulated in index order
    from [0.0].  From 8 to 128 cells, eight accumulators [r0 .. r7] take the
    cells of index [j], [8 + j], [16 + j], ... of the full blocks of eight;
    they are combined as [((r0 + r1) + (r2 + r3)) + ((r4 + r5) + (r6 + r7))]
    and the cells after the last full block are added in index order.  A
    longer array is split at half its length, rounded down to a multiple of
    8, and the sums of the two parts are added. *)
Definition lane (a : list float64) (blocks j : nat) : float64 :=
  fold_left add
    (map (fun k => nth (8 * k + j) a zero) (seq 1 (blocks - 1)))
    (nth j a zero).

Fixpoint pairwise_sum (fuel : nat) (a : list float64) : float64 :=
  let n := List.length a in
  if (n <? 8)%nat then fold_left add a zero
  else if (n <=? 128)%nat then
    let blocks := (n / 8)%nat in
    let r := lane a blocks in
    fold_left add (skipn (8 * blocks) a)
      (add (add (add (r 0%nat) (r 1%nat)) (add (r 2%nat) (r 3%nat)))
           (add (add (r 4%nat) (r 5%nat)) (add (r 6%nat) (r 7%nat))))
  else
    match fuel with
    | O => zero
    | S fuel' =>
        let n2 := (n / 2 - (n / 2) mod 8)%nat in
        add (pairwise_sum fuel' (firstn n2 a))
            (pairwise_sum fuel' (skipn n2 a))
    end.

(** [s.sum()] on a [float64] column: the NaN cells are replaced by [0.0] in
    place, and the array is reduced by numpy, which adds its pairwise sum to
    the identity [0.0].  (The recursion of [pairwise_sum] halves the array,
    so its length is fuel enough.) *)
Definition nansum (s : Series float64) : float64 :=
  let a := map (fun x => if isnan x then zero else x) s in
  add zero (pairwise_sum (List.length a) a).

(** [s.mean()] on a [float64] column: the sum of the non-NaN cells over their
    number; NaN on an empty column. *)
Definition nanmean (s : Series float64) : float64 :=
  div (nansum s)
      (of_Z (Z.of_nat (List.length (filter (fun x => negb (isnan x)) s)))).

(** [s.sum()] on an [int64] column: two's-complement wrap-around. *)
Definition wrap64 (n : Z) : Z :=
  (n + 2 ^ 63) mod 2 ^ 64 - 2 ^ 63.

Definition sum_int64 (s : Series Z) : Z :=
  fold_left (fun acc x => wrap64 (acc + x)) s 0%Z.

(* ===================================================================== *)
(** ** The metrics aggregator (calcular_metricas_principais, lines 82-104) *)
(* ===================================================================== *)

Module Metricas.
Record t : Type := mk {
  faturamento_total : float64;
  crescimento_yoy : float64;
  margem_media : float64;
  ticket_medio : float64;
  volume_total : Z;
  faturamento_2023 : float64;
  faturamento_2024 : float64
}.
End Metricas.

(** [df[df['ano'] == y]['faturamento'].sum()]. *)
Definition faturamento_ano (df : DataFrame) (y : Z) : float64 :=
  nansum (col faturamento (getitem_mask df (eq_scalar Z.eqb (col ano df) y))).

Definition calcular_metricas_principais (df : DataFrame) : Metricas.t :=
  let faturamento_total := nansum (col faturamento df) in
  let faturamento_2023 := faturamento_ano df 2023 in
  let faturamento_2024 := faturamento_ano df 2024 in
  let crescimento_yoy :=
    mul (div (sub faturamento_2024 faturamento_2023) faturamento_2023)
        (of_Z 100) in
  let margem_media := nanmean (col margem_lucro df) in
  let ticket_medio := nanmean (col ticket_medio df) in
  let volume_total := sum_int64 (col quantidade_vendida df) in
  {| Metricas.faturamento_total := faturamento_total;
     Metricas.crescimento_yoy := crescimento_yoy;
     Metricas.margem_media := margem_media;
     Metricas.ticket_medio := ticket_medio;
     Metricas.volume_total := volume_total;
     Metricas.faturamento_2023 := faturamento_2023;
     Metricas.faturamento_2024 := faturamento_2024 |}.

(* ===================================================================== *)
(** ** The global filters (lines 139-167) *)
(* ===================================================================== *)

(** What the three sidebar multiselects return. *)
Record FilterSelection : Type := mkSelection {
  anos_selecionados : list Z;
  regioes_selecionadas : list string;
  produtos_selecionados : list string
}.

Definition anos_disponiveis (df : DataFrame) : list Z :=
  sorted Z.leb (unique Z.eqb (col ano df)).

Definition regioes_disponiveis (df : DataFrame) : list string :=
  sorted String.leb (unique String.eqb (col regiao df)).

Definition produtos_disponiveis (df : DataFrame) : list string :=
  sorted String.leb (unique String.eqb (col produto df)).

(** The [default=] of the three widgets: everything available. *)
Definition default_selection (df : DataFrame) : FilterSelection :=
  {| anos_selecionados := anos_disponiveis df;
     regioes_selecionadas := regioes_disponiveis df;
     produtos_selecionados := produtos_disponiveis df |}.

Definition df_filtrado (df : DataFrame) (sel : FilterSelection) : DataFrame :=
  getitem_mask df
    (mask_and
       (mask_and (isin Z.eqb (col ano df) (anos_selecionados sel))
                 (isin String.eqb (col regiao df) (regioes_selecionadas sel)))
       (isin String.eqb (col produto df) (produtos_selecionados sel))).

(* ===================================================================== *)
(** ** Grouped aggregation (lines 271-275 and 384) *)
(* ===================================================================== *)

(** [df.groupby(key)]: one group per distinct key that occurs, in ascending
    key order, each with its rows in index order. *)
Definition groupby (key : Row -> string) (df : DataFrame)
    : list (string * DataFrame) :=
  map (fun k => (k, filter (fun r => String.eqb (key r) k) df))
      (sorted String.leb (unique String.eqb (col key df))).

(** The sum of one group of a [groupby(...).sum()] on a [float64] column:
    Kahan compensated summation over the non-NaN cells of the group in index
    order; a compensation that is NaN (after an infinity) is reset. *)
Definition kahan_add (st : float64 * float64) (val : float64)
    : float64 * float64 :=
  let y := sub val (snd st) in
  let t := add (fst st) y in
  let c := sub (sub t (fst st)) y in
  (t, if isnan c then zero else c).

Definition group_sum (s : Series float64) : float64 :=
  fst (fold_left kahan_add (filter (fun x => negb (isnan x)) s) (zero, zero)).

(** The mean of one group of a [groupby(...).mean()]: the compensated sum
    over the number of non-NaN cells, NaN when there is none. *)
Definition group_mean (s : Series float64) : float64 :=
  div (group_sum s)
      (of_Z (Z.of_nat (List.length (filter (fun x => negb (isnan x)) s)))).

(** [df.groupby('categoria')['faturamento'].sum()]. *)
Definition faturamento_por_categoria (df : DataFrame)
    : list (string * float64) :=
  map (fun g => (fst g, group_sum (col faturamento (snd g))))
      (groupby categoria df).

(** A line of [resumo_categoria] before its revenue cell is formatted. *)
Record ResumoLinha : Type := mkResumo {
  res_faturamento : float64;
  res_quantidade_vendida : Z;
  res_margem_lucro : float64
}.

(** [df.groupby('categoria').agg({'faturamento': 'sum',
    'quantidade_vendida': 'sum', 'margem_lucro': 'mean'}).round(2)];
    rounding leaves the integer column as it is. *)
Definition resumo_categoria (df : DataFrame) : list (string * ResumoLinha) :=
  map (fun g =>
         (fst g,
          {| res_faturamento := round (group_sum (col faturamento (snd g))) 2;
             res_quantidade_vendida :=
               sum_int64 (col quantidade_vendida (snd g));
             res_margem_lucro :=
               round (group_mean (col margem_lucro (snd g))) 2 |}))
      (groupby categoria df).

(** The rational number a finite binary64 denotes; the cells [s.sum()]
    skips or that are not numbers count for nothing. *)
Definition to_Q (x : float64) : Q :=
  match x with
  | S754_finite s m e => (inject_Z (cond_Zopp s (Zpos m)) * Qpower 2 e)%Q
  | _ => 0%Q
  end.

(** The sum of a rational quantity over the rows of a table, without
    rounding. *)
Definition soma_exata (v : Row -> Q) (df : DataFrame) : Q :=
  fold_right (fun r acc => (v r + acc)%Q) 0%Q df.

(* ===================================================================== *)
(** ** The script: loading, sidebar, page dispatch (lines 64-80, 110-178) *)
(* ===================================================================== *)

Inductive Exn : Type :=
  | FileNotFoundError
  | OtherError.

Inductive Pagina : Type :=
  | VisaoGeral
  | BusinessUnderstanding
  | DataUnderstanding
  | DataPreparation
  | ModelingAnalysis
  | Evaluation
  | Deployment
  | ConceitosVisualizacao.

(** The Streamlit calls of the script.  The body of a page is one event that
    carries what the page reads; the last two are the module-level footer
    (lines 1337-1343). *)
Inductive StCall : Type :=
  | SetPageConfig
  | MarkdownCss
  | SidebarImage
  | SidebarTitle
  | SidebarRule
  | SidebarSelectbox (chosen : Pagina)
  | SidebarSubheader
  | MultiselectAnos (options default : list Z)
  | MultiselectRegioes (options default : list string)
  | MultiselectProdutos (options default : list string)
  | StError (msg : string)
  | PageBody (p : Pagina) (df filtrado : DataFrame) (metricas : Metricas.t)
  | FooterRule
  | Footer.

(** Calls that read the loaded table. *)
Definition uses_data (c : StCall) : bool :=
  match c with
  | SidebarSubheader
  | MultiselectAnos _ _ | MultiselectRegioes _ _ | MultiselectProdutos _ _
  | PageBody _ _ _ _ => true
  | _ => false
  end.

Module Script.

Inductive Outcome (A : Type) : Type :=
  | Returned (a : A)
  | Raised (e : Exn).
Arguments Returned {A} a.
Arguments Raised {A} e.

(** A computation that appends to the trace of Streamlit calls and either
    returns or raises. *)
Definition M (A : Type) : Type := list StCall -> Outcome A * list StCall.

Definition ret {A : Type} (a : A) : M A := fun tr => (Returned a, tr).

Definition bind {A B : Type} (c : M A) (k : A -> M B) : M B :=
  fun tr =>
    match c tr with
    | (Returned a, tr') => k a tr'
    | (Raised e, tr') => (Raised e, tr')
    end.

Definition raise {A : Type} (e : Exn) : M A := fun tr => (Raised e, tr).

(** [try: c  except <handles>: h]. *)
Definition try_except {A : Type} (c : M A) (handles : Exn -> bool)
    (h : M A) : M A :=
  fun tr =>
    match c tr with
    | (Raised e, tr') => if handles e then h tr' else (Raised e, tr')
    | r => r
    end.

Definition st (c : StCall) : M unit := fun tr => (Returned tt, (tr ++ [c])%list).

End Script.

Import Script.

Notation "x <- c ;; k" := (Script.bind c (fun x => k))
  (at level 61, c at next level, right associativity).
Notation "c ;;; k" := (Script.bind c (fun _ => k))
  (at level 61, right associativity).

(** A cell of the [data] column as [read_csv] leaves it: empty, a text that
    is not a date, or the text of a date. *)
Inductive DataCell : Type :=
  | DataVazia
  | DataIlegivel
  | DataLida (t : Timestamp).

(** A line of the file as [read_csv] returns it, the date not yet parsed. *)
Record CsvLinha : Type := mkCsvLinha {
  csv_data : DataCell;
  csv_ano : Z;
  csv_mes : Z;
  csv_trimestre : Z;
  csv_regiao : string;
  csv_produto : string;
  csv_categoria : string;
  csv_quantidade_vendida : Z;
  csv_preco_unitario : float64;
  csv_custo_unitario : float64;
  csv_faturamento : float64;
  csv_lucro_bruto : float64;
  csv_margem_lucro : float64;
  csv_ticket_medio : float64
}.

(** What [pd.read_csv('dataset_vendas_completo.csv')] finds: no file, a
    file it cannot read as a table, or the lines of the table. *)
Inductive CsvSource : Type :=
  | Absent
  | Unreadable
  | Present (linhas : list CsvLinha).

Definition read_csv (src : CsvSource) : M (list CsvLinha) :=
  match src with
  | Absent => raise FileNotFoundError
  | Unreadable => raise OtherError
  | Present linhas => ret linhas
  end.

(** The date of a cell that [pd.to_datetime] accepts: [NaT] for an empty
    cell. *)
Definition data_da_celula (c : DataCell) : option (option Timestamp) :=
  match c with
  | DataVazia => Some None
  | DataIlegivel => None
  | DataLida t => Some (Some t)
  end.

Definition legivel (l : CsvLinha) : bool :=
  match csv_data l with DataIlegivel => false | _ => true end.

Definition com_data (l : CsvLinha) (d : option Timestamp) : RawRow :=
  {| raw_data := d;
     raw_ano := csv_ano l;
     raw_mes := csv_mes l;
     raw_trimestre := csv_trimestre l;
     raw_regiao := csv_regiao l;
     raw_produto := csv_produto l;
     raw_categoria := csv_categoria l;
     raw_quantidade_vendida := csv_quantidade_vendida l;
     raw_preco_unitario := csv_preco_unitario l;
     raw_custo_unitario := csv_custo_unitario l;
     raw_faturamento := csv_faturamento l;
     raw_lucro_bruto := csv_lucro_bruto l;
     raw_margem_lucro := csv_margem_lucro l;
     raw_ticket_medio := csv_ticket_medio l |}.

(** [df['data'] = pd.to_datetime(df['data'])] (line 69): the column is
    replaced when every cell parses; one cell that does not makes the call
    raise, and nothing is assigned. *)
Fixpoint parse_linhas (linhas : list CsvLinha) : option (list RawRow) :=
  match linhas with
  | [] => Some []
  | l :: linhas' =>
      match data_da_celula (csv_data l), parse_linhas linhas' with
      | Some d, Some rows => Some (com_data l d :: rows)
      | _, _ => None
      end
  end.

Definition to_datetime (linhas : list CsvLinha) : M (list RawRow) :=
  match parse_linhas linhas with
  | Some rows => ret rows
  | None => raise OtherError
  end.

Definition msg_arquivo_nao_encontrado : string :=
  "⚠️ Arquivo 'dataset_vendas_completo.csv' não encontrado. Por favor, gere o dataset primeiro.".

Definition msg_nao_foi_possivel : string :=
  "Não foi possível carregar os dados. Verifique se o arquivo existe.".

Definition is_FileNotFoundError (e : Exn) : bool :=
  match e with FileNotFoundError => true | _ => false end.

(** [carregar_dados]: [None] is the value returned from the handler, which
    handles [FileNotFoundError] alone.  This is the body of the function, as
    it runs when [st.cache_data] holds no entry for it. *)
Definition carregar_dados (src : CsvSource) : M (option DataFrame) :=
  try_except
    (linhas <- read_csv src ;;
     rows <- to_datetime linhas ;;
     ret (Some (add_features rows)))
    is_FileNotFoundError
    (st (StError msg_arquivo_nao_encontrado) ;;;
     ret None).

(** The state of the widgets: the page chosen in the selectbox and, for each
    multiselect, the selection it returns given its options. *)
Record UserInput : Type := mkInput {
  pagina : Pagina;
  escolhe_anos : list Z -> list Z;
  escolhe_regioes : list string -> list string;
  escolhe_produtos : list string -> list string
}.

(** The module-level variables bound when the script ends; [None] is a name
    that was never assigned (for [df], the value [None]).  Reading an
    unassigned name raises. *)
Record Session : Type := mkSession {
  ses_df : option DataFrame;
  ses_df_filtrado : option DataFrame;
  ses_metricas : option Metricas.t
}.

Definition sidebar_filtros (df : DataFrame) (ui : UserInput)
    : M FilterSelection :=
  st SidebarSubheader ;;;
  st (MultiselectAnos (anos_disponiveis df) (anos_disponiveis df)) ;;;
  st (MultiselectRegioes (regioes_disponiveis df) (regioes_disponiveis df)) ;;;
  st (MultiselectProdutos (produtos_disponiveis df) (produtos_disponiveis df)) ;;;
  ret {| anos_selecionados := escolhe_anos ui (anos_disponiveis df);
         regioes_selecionadas := escolhe_regioes ui (regioes_disponiveis df);
         produtos_selecionados := escolhe_produtos ui (produtos_disponiveis df) |}.

Definition script (src : CsvSource) (ui : UserInput) : M Session :=
  st SetPageConfig ;;;
  st MarkdownCss ;;;
  st SidebarImage ;;;
  st SidebarTitle ;;;
  st SidebarRule ;;;
  st (SidebarSelectbox (pagina ui)) ;;;
  st SidebarRule ;;;
  df <- carregar_dados src ;;
  ses <- match df with
         | Some d =>
             sel <- sidebar_filtros d ui ;;
             let filtrado := df_filtrado d sel in
             let metricas := calcular_metricas_principais filtrado in
             ret {| ses_df := df;
                    ses_df_filtrado := Some filtrado;
                    ses_metricas := Some metricas |}
         | None =>
             ret {| ses_df := None;
                    ses_df_filtrado := None;
                    ses_metricas := None |}
         end ;;
  match ses_df ses with
  | None => st (StError msg_nao_foi_possivel)
  | Some d =>
      match ses_df_filtrado ses, ses_metricas ses with
      | Some filtrado, Some metricas =>
          st (PageBody (pagina ui) d filtrado metricas)
      | _, _ => raise OtherError
      end
  end ;;;
  st FooterRule ;;;
  st Footer ;;;
  ret ses.

(* ===================================================================== *)
(** ** Reference definitions and example tables *)
(* ===================================================================== *)

(** The conjunctive predicate of the three selections, as a test and as a
    proposition. *)
Definition selecionada (sel : FilterSelection) (r : Row) : bool :=
  existsb (Z.eqb (ano r)) (anos_selecionados sel)
  && existsb (String.eqb (regiao r)) (regioes_selecionadas sel)
  && existsb (String.eqb (produto r)) (produtos_selecionados sel).

Definition Selecionada (sel : FilterSelection) (r : Row) : Prop :=
  In (ano r) (anos_selecionados sel)
  /\ In (regiao r) (regioes_selecionadas sel)
  /\ In (produto r) (produtos_selecionados sel).

(** The half-year label with the year and the half joined directly, as the
    specification words it. *)
Definition ano_semestre_spec (a : Z) (s : string) : string :=
  str_int a ++ s.

(** The return on investment as the specification words it: null on a zero
    cost basis, the rounded percentage otherwise. *)
Definition roi_spec (lucro custo : float64) (quantidade : Z) : float64 :=
  let d := mul custo (of_Z quantidade) in
  if is_zero d then nan
  else round (mul (div lucro d) (of_Z 100)) 2.

(** A sale in March 2023 of five units of an item of cost zero. *)
Definition venda_custo_zero : RawRow :=
  {| raw_data := Some (mkTimestamp 2023 3 15);
     raw_ano := 2023;
     raw_mes := 3;
     raw_trimestre := 1;
     raw_regiao := "Sul";
     raw_produto := "Mouse";
     raw_categoria := "Acessorios";
     raw_quantidade_vendida := 5;
     raw_preco_unitario := of_Z 2;
     raw_custo_unitario := zero;
     raw_faturamento := of_Z 10;
     raw_lucro_bruto := of_Z 10;
     raw_margem_lucro := of_Z 100;
     raw_ticket_medio := of_Z 10 |}.

(** Total revenue of the rows of year [y]. *)
Definition receita_do_ano (df : DataFrame) (y : Z) : float64 :=
  nansum (col faturamento (filter (fun r => (ano r =? y)%Z) df)).



(** The growth formula on two yearly totals. *)
Definition crescimento (atual anterior : float64) : float64 :=
  mul (div (sub atual anterior) anterior) (of_Z 100).

(** The selection that keeps every year and product and the given regions. *)
Definition so_regioes (df : DataFrame) (regioes : list string)
    : FilterSelection :=
  {| anos_selecionados := anos_disponiveis df;
     regioes_selecionadas := regioes;
     produtos_selecionados := produtos_disponiveis df |}.

(** A line of the CSV with the columns the examples vary; the rest is
    fixed. *)
Definition venda (a m : Z) (reg prod cat : string) (fat : float64) : RawRow :=
  {| raw_data := Some (mkTimestamp a m 1);
     raw_ano := a;
     raw_mes := m;
     raw_trimestre := (m + 2) / 3;
     raw_regiao := reg;
     raw_produto := prod;
     raw_categoria := cat;
     raw_quantidade_vendida := 1;
     raw_preco_unitario := fat;
     raw_custo_unitario := of_Z 1;
     raw_faturamento := fat;
     raw_lucro_bruto := of_Z 0;
     raw_margem_lucro := of_Z 0;
     raw_ticket_medio := fat |}.

Definition tabela_100_150 : DataFrame :=
  add_features [venda 2023 5 "A" "Mouse" "Acessorios" (of_Z 100);
                venda 2024 5 "A" "Mouse" "Acessorios" (of_Z 150)].

Definition cenario_r1 : Row := derive (venda 2023 1 "A" "Mouse" "Acessorios" (of_Z 100)).
Definition cenario_r2 : Row := derive (venda 2024 1 "A" "Monitor" "Eletronicos" (of_Z 120)).
Definition cenario_r3 : Row := derive (venda 2023 9 "B" "Mouse" "Acessorios" (of_Z 50)).

(** Only a 2024 sale, of revenue 150. *)
Definition tabela_so_2024 : DataFrame :=
  add_features [venda 2024 5 "A" "Mouse" "Acessorios" (of_Z 150)].

(** Sales of 2021 and 2022 only. *)
Definition tabela_outros_anos : DataFrame :=
  add_features [venda 2021 5 "A" "Mouse" "Acessorios" (of_Z 80);
                venda 2022 5 "A" "Mouse" "Acessorios" (of_Z 90)].


(** Nine cells on which the order of the additions shows: a large sale,
    three sales of 1, four of 0 and the reversal of the large sale. *)
Definition nove_parcelas : list float64 :=
  [of_Z (10 ^ 16); of_Z 1; of_Z 1; of_Z 1; of_Z 0; of_Z 0; of_Z 0; of_Z 0;
   of_Z (- 10 ^ 16)].

(** A line of the file with the given date cell. *)
Definition linha (c : DataCell) (a : Z) (fat : float64) : CsvLinha :=
  {| csv_data := c;
     csv_ano := a;
     csv_mes := 5;
     csv_trimestre := 2;
     csv_regiao := "A";
     csv_produto := "Mouse";
     csv_categoria := "Acessorios";
     csv_quantidade_vendida := 1;
     csv_preco_unitario := fat;
     csv_custo_unitario := of_Z 1;
     csv_faturamento := fat;
     csv_lucro_bruto := of_Z 0;
     csv_margem_lucro := of_Z 0;
     csv_ticket_medio := fat |}.

(** The row [pd.to_datetime] leaves for a line whose date cell parses. *)
Definition linha_lida (l : CsvLinha) : RawRow :=
  com_data l (match csv_data l with DataLida t => Some t | _ => None end).

(** The exact sum over every group, added up over the groups. *)
Definition soma_exata_grupos (v : Row -> Q) (gs : list (string * DataFrame)) : Q :=
  fold_right (fun g acc => (soma_exata v (snd g) + acc)%Q) 0%Q gs.

(** The exact revenue of a row. *)
Definition receita_exata (r : Row) : Q := to_Q (faturamento r).

(** Two sales of revenue 0.125 each, in two categories. *)
Definition tabela_oitavos : DataFrame :=
  add_features [venda 2023 1 "A" "Mouse" "Acessorios" (of_decimal 125 3);
                venda 2023 2 "A" "Monitor" "Eletronicos" (of_decimal 125 3)].

(** A sale and its reversal in one category, a small sale in another. *)
Definition tabela_estorno : DataFrame :=
  add_features [venda 2023 1 "A" "Monitor" "Eletronicos" (of_Z (10 ^ 16));
                venda 2023 2 "A" "Mouse" "Acessorios" (of_Z 1);
                venda 2023 3 "A" "Monitor" "Eletronicos" (of_Z (- 10 ^ 16))].

(* ===================================================================== *)
(** ** Page computations (lines 351, 589, 615-618, 712-714, 909-1016) *)
(* ===================================================================== *)

(** Exceptions raised inside a page body. *)
Inductive PyExn : Type :=
  | IndexError
  | ValueError.

Module Res.

Inductive t (A : Type) : Type :=
  | Val (a : A)
  | Err (e : PyExn).
Arguments Val {A} a.
Arguments Err {A} e.

Definition bind {A B : Type} (c : t A) (k : A -> t B) : t B :=
  match c with
  | Val a => k a
  | Err e => Err e
  end.

(** A [for] loop (or comprehension) that collects one value per item and
    stops at the first exception. *)
Fixpoint mapM {A B : Type} (f : A -> t B) (l : list A) : t (list B) :=
  match l with
  | [] => Val []
  | x :: l' =>
      bind (f x) (fun y => bind (mapM f l') (fun ys => Val (y :: ys)))
  end.

End Res.

(** [s.iloc[i]]: position [i], counted from the end when negative;
    [IndexError] out of bounds. *)
Definition iloc {A : Type} (s : Series A) (i : Z) : Res.t A :=
  let n := Z.of_nat (List.length s) in
  let j := if (i <? 0)%Z then (n + i)%Z else i in
  if ((0 <=? j) && (j <? n))%Z then
    match nth_error s (Z.to_nat j) with
    | Some a => Res.Val a
    | None => Res.Err IndexError
    end
  else Res.Err IndexError.

(** Equality and chronological order of dates.  The [data] column holds
    calendar dates: two cells are the same date when their year, month and
    day agree. *)
Definition ts_eqb (a b : Timestamp) : bool :=
  ((year a =? year b) && (month a =? month b) && (day a =? day b))%Z.

Definition ts_leb (a b : Timestamp) : bool :=
  match (year a ?= year b)%Z with
  | Lt => true
  | Gt => false
  | Eq =>
      match (month a ?= month b)%Z with
      | Lt => true
      | Gt => false
      | Eq => (day a <=? day b)%Z
      end
  end.

(** The cells of [df['data']] that are not [NaT], in index order. *)
Definition datas_validas (df : DataFrame) : list Timestamp :=
  flat_map (fun r => match data r with Some t => [t] | None => [] end) df.

(** [df['data'] == t]. *)
Definition na_data (t : Timestamp) (r : Row) : bool :=
  match data r with
  | Some t' => ts_eqb t' t
  | None => false
  end.

(** A line of [vendas_mensais] (lines 525-529). *)
Record VendaMensal : Type := mkVendaMensal {
  vm_data : Timestamp;
  vm_faturamento : float64;
  vm_quantidade_vendida : Z;
  vm_margem_lucro : float64
}.

(** [df.groupby('data').agg({'faturamento': 'sum', 'quantidade_vendida':
    'sum', 'margem_lucro': 'mean'}).reset_index()]: one line per date that
    occurs, in chronological order; rows without a date are in no group. *)
Definition vendas_mensais (df : DataFrame) : list VendaMensal :=
  map (fun t =>
         let g := filter (na_data t) df in
         {| vm_data := t;
            vm_faturamento := group_sum (col faturamento g);
            vm_quantidade_vendida := sum_int64 (col quantidade_vendida g);
            vm_margem_lucro := group_mean (col margem_lucro g) |})
      (sorted ts_leb (unique ts_eqb (datas_validas df))).

(** Line 589: [((s.iloc[-1] / s.iloc[0]) - 1) * 100] on the revenue column of
    [vendas_mensais]. *)
Definition crescimento_total (vm : list VendaMensal) : Res.t float64 :=
  Res.bind (iloc (col vm_faturamento vm) (-1)) (fun ultimo =>
  Res.bind (iloc (col vm_faturamento vm) 0) (fun primeiro =>
  Res.Val (mul (sub (div ultimo primeiro) (of_Z 1)) (of_Z 100)))).

(** [df['data'].min()] and [.max()]: [NaT] cells are skipped; [NaT] when
    nothing is left. *)
Definition data_min (df : DataFrame) : option Timestamp :=
  match datas_validas df with
  | [] => None
  | t :: l => Some (fold_left (fun a b => if ts_leb a b then a else b) l t)
  end.

Definition data_max (df : DataFrame) : option Timestamp :=
  match datas_validas df with
  | [] => None
  | t :: l => Some (fold_left (fun a b => if ts_leb a b then b else a) l t)
  end.

(** [d.strftime('%m/%Y')]; [NaT] does not support it.  The year of a
    [datetime64] value has four digits. *)
Definition strftime_m_Y (d : option Timestamp) : Res.t string :=
  match d with
  | Some t => Res.Val (pad2 (month t) ++ "/" ++ str_int (year t))
  | None => Res.Err ValueError
  end.

(** Line 351: the value of the period metric. *)
Definition periodo (df : DataFrame) : Res.t string :=
  Res.bind (strftime_m_Y (data_min df)) (fun de =>
  Res.bind (strftime_m_Y (data_max df)) (fun ate =>
  Res.Val (de ++ " - " ++ ate))).

(** The two entries of [CORES] the product matrix uses. *)
Definition CORES_principal : string := "#2E86AB".
Definition CORES_secundaria : string := "#A23B72".

(** Lines 616-618, for one product of the grouped index. *)
Definition cor_do_produto (df : DataFrame) (p : string) : Res.t string :=
  let dados_prod := getitem_mask df (eq_scalar String.eqb (col produto df) p) in
  Res.bind (iloc (col categoria dados_prod) 0) (fun cat =>
  Res.Val (if String.eqb cat "Eletrônicos" then CORES_principal
           else CORES_secundaria)).

(** Lines 615-618: the loop over [df_produtos.index], the products of the
    filtered table in ascending order. *)
Definition cores_dos_produtos (df : DataFrame) : Res.t (list (string * string)) :=
  Res.mapM (fun p => Res.bind (cor_do_produto df p) (fun c => Res.Val (p, c)))
           (map fst (groupby produto df)).

(** A Series indexed by region names, as [groupby('regiao')[...].sum()]
    returns it: ascending, one entry per region. *)
Definition SerieRegiao : Type := list (string * float64).

(** [df.groupby('regiao')['faturamento'].sum()]. *)
Definition faturamento_por_regiao (df : DataFrame) : SerieRegiao :=
  map (fun g => (fst g, group_sum (col faturamento (snd g))))
      (groupby regiao df).

(** The cell of label [k] after reindexing: NaN for a label the Series does
    not have. *)
Definition loc_nan (s : SerieRegiao) (k : string) : float64 :=
  match find (fun p => String.eqb (fst p) k) s with
  | Some p => snd p
  | None => nan
  end.

(** [a op b] on two Series: both are reindexed to the ascending union of
    their labels, then combined cell by cell. *)
Definition binop_alinhado (op : float64 -> float64 -> float64)
    (a b : SerieRegiao) : SerieRegiao :=
  map (fun k => (k, op (loc_nan a k) (loc_nan b k)))
      (sorted String.leb (unique String.eqb (map fst a ++ map fst b)%list)).

(** [s * c] and [s.fillna(v)]. *)
Definition vezes (s : SerieRegiao) (c : float64) : SerieRegiao :=
  map (fun p => (fst p, mul (snd p) c)) s.

Definition fillna (s : SerieRegiao) (v : float64) : SerieRegiao :=
  map (fun p => (fst p, if isnan (snd p) then v else snd p)) s.

(** Lines 712-714. *)
Definition crescimento_regional (df : DataFrame) : SerieRegiao :=
  let df_2023 :=
    faturamento_por_regiao
      (getitem_mask df (eq_scalar Z.eqb (col ano df) 2023)) in
  let df_2024 :=
    faturamento_por_regiao
      (getitem_mask df (eq_scalar Z.eqb (col ano df) 2024)) in
  fillna
    (vezes (binop_alinhado div (binop_alinhado sub df_2024 df_2023) df_2023)
           (of_Z 100))
    zero.

(** An entry of [kpis_avaliacao] (lines 917-939), with the keys the score
    reads. *)
Record Kpi : Type := mkKpi {
  kpi_nome : string;
  kpi_meta : Z;
  kpi_realizado : float64
}.

(** Lines 909-939: the three KPIs, computed on the loaded table [df], not on
    the filtered one. *)
Definition kpis_avaliacao (df : DataFrame) : list Kpi :=
  let faturamento_2023 := faturamento_ano df 2023 in
  let faturamento_2024 := faturamento_ano df 2024 in
  let crescimento_yoy :=
    mul (div (sub faturamento_2024 faturamento_2023) faturamento_2023)
        (of_Z 100) in
  let margem_media := nanmean (col margem_lucro df) in
  [ {| kpi_nome := "Crescimento de Receita";
       kpi_meta := 15;
       kpi_realizado := crescimento_yoy |};
    {| kpi_nome := "Margem de Lucro";
       kpi_meta := 35;
       kpi_realizado := margem_media |};
    {| kpi_nome := "ROI Médio dos Produtos";
       kpi_meta := 25;
       kpi_realizado := nanmean (col roi df) |} ].

(** [x >= y] on floats: false as soon as one side is NaN. *)
Definition float_ge (x y : float64) : bool := SFleb y x.

(** [kpi['realizado'] >= kpi['meta']]. *)
Definition atingido (k : Kpi) : bool :=
  float_ge (kpi_realizado k) (of_Z (kpi_meta k)).

(** Lines 1012-1015. *)
Definition score_total (df : DataFrame) : Z :=
  Z.of_nat (List.length (filter atingido (kpis_avaliacao df))).

Definition percentual_atingimento (df : DataFrame) : float64 :=
  mul (div (of_Z (score_total df))
           (of_Z (Z.of_nat (List.length (kpis_avaliacao df)))))
      (of_Z 100).

(** The argument of [st.progress], which accepts a float of [[0.0, 1.0]]
    only. *)
Definition progresso (df : DataFrame) : float64 :=
  div (percentual_atingimento df) (of_Z 100).

(** Revenue of the rows dated [t]. *)
Definition receita_na_data (df : DataFrame) (t : Timestamp) : float64 :=
  group_sum (col faturamento (filter (na_data t) df)).

(** Revenue of the rows of region [k] and year [y]. *)
Definition receita_regiao_ano (df : DataFrame) (k : string) (y : Z) : float64 :=
  group_sum (col faturamento
            (filter (fun r => String.eqb (regiao r) k)
                    (filter (fun r => (ano r =? y)%Z) df))).

(** Whether region [k] has a row of year [y]. *)
Definition tem_regiao_ano (df : DataFrame) (k : string) (y : Z) : bool :=
  existsb (fun r => String.eqb (regiao r) k && (ano r =? y)%Z) df.

(** The metrics of a table without rows. *)
Definition metricas_vazias : Metricas.t :=
  {| Metricas.faturamento_total := zero;
     Metricas.crescimento_yoy := nan;
     Metricas.margem_media := nan;
     Metricas.ticket_medio := nan;
     Metricas.volume_total := 0;
     Metricas.faturamento_2023 := zero;
     Metricas.faturamento_2024 := zero |}.

(** Sales of region A in 2023 and 2024 and of region B in 2023 only. *)
Definition tabela_cenario : DataFrame := [cenario_r1; cenario_r2; cenario_r3].

(** The category the product matrix reads for a product: that of its first
    row in the table. *)
Definition primeira_categoria (df : DataFrame) (p : string) : string :=
  match filter (fun r => String.eqb (produto r) p) df with
  | r :: _ => categoria r
  | [] => EmptyString
  end.

(** The dates of [vendas_mensais], in the order of its lines. *)
Definition datas_ordenadas (df : DataFrame) : list Timestamp :=
  sorted ts_leb (unique ts_eqb (datas_validas df)).

(** [s.round(d)] on a Series. *)
Definition round_serie (s : SerieRegiao) (d : Z) : SerieRegiao :=
  map (fun p => (fst p, round (snd p) d)) s.

(** Line 800: [df_regional['crescimento_yoy'] = crescimento_regional.round(1)].
    [df_regional] is indexed by the regions of the filtered table (line
    705); the assigned Series is reindexed to that index. *)
Definition coluna_crescimento_yoy (df : DataFrame) : SerieRegiao :=
  map (fun k => (k, loc_nan (round_serie (crescimento_regional df) 1) k))
      (map fst (groupby regiao df)).

(** The growth [crescimento_regional] holds for a region of its index. *)
Definition crescimento_da_regiao (df : DataFrame) (k : string) : float64 :=
  if tem_regiao_ano df k 2023 && tem_regiao_ano df k 2024 then
    let g := crescimento (receita_regiao_ano df k 2024)
                         (receita_regiao_ano df k 2023) in
    if isnan g then zero else g
  else zero.

(* ===================================================================== *)
(** * Properties *)
(* ===================================================================== *)

(** ** Masks, membership, [unique] and [sorted] *)

Section SeriesFacts.

Context {R : Type}.

Lemma getitem_mask_map (f : R -> bool) (df : list R) :
  getitem_mask df (map f df) = filter f df.
Proof.
  induction df as [|r df IH]; simpl; [reflexivity|].
  rewrite IH. reflexivity.
Qed.

Lemma mask_and_map (f g : R -> bool) (df : list R) :
  mask_and (map f df) (map g df) = map (fun r => f r && g r) df.
Proof.
  unfold mask_and.
  induction df as [|r df IH]; simpl; [reflexivity|].
  f_equal. exact IH.
Qed.

Lemma isin_col {A : Type} (eqb : A -> A -> bool) (c : R -> A)
    (df : list R) (values : list A) :
  isin eqb (col c df) values = map (fun r => existsb (eqb (c r)) values) df.
Proof. unfold isin, col. apply map_map. Qed.

Lemma eq_scalar_col {A : Type} (eqb : A -> A -> bool) (c : R -> A)
    (df : list R) (v : A) :
  eq_scalar eqb (col c df) v = map (fun r => eqb (c r) v) df.
Proof. unfold eq_scalar, col. apply map_map. Qed.

Lemma filter_all_true (f : R -> bool) (df : list R) :
  (forall r, In r df -> f r = true) -> filter f df = df.
Proof.
  induction df as [|r df IH]; simpl; intros H; [reflexivity|].
  rewrite (H r (or_introl eq_refl)). f_equal. apply IH.
  intros r' Hr'. apply H. right. exact Hr'.
Qed.

Lemma filter_all_false (f : R -> bool) (df : list R) :
  (forall r, In r df -> f r = false) -> filter f df = [].
Proof.
  induction df as [|r df IH]; simpl; intros H; [reflexivity|].
  rewrite (H r (or_introl eq_refl)). apply IH.
  intros r' Hr'. apply H. right. exact Hr'.
Qed.

End SeriesFacts.

Section Membership.

Context {A : Type} (eqb : A -> A -> bool).
Hypothesis eqb_spec : forall x y, eqb x y = true <-> x = y.

Lemma existsb_eqb_In (x : A) (l : list A) :
  existsb (eqb x) l = true <-> In x l.
Proof.
  rewrite existsb_exists. split.
  - intros [y [Hy Hxy]]. apply eqb_spec in Hxy. subst y. exact Hy.
  - intros Hx. exists x. split; [exact Hx|]. apply eqb_spec. reflexivity.
Qed.

Lemma In_unique (x : A) (s : list A) : In x (unique eqb s) <-> In x s.
Proof.
  induction s as [|y s IH]; simpl; [tauto|].
  rewrite filter_In, IH. split.
  - intros [H|[H _]]; [left|right]; assumption.
  - intros [H|H]; [left; exact H|].
    destruct (eqb x y) eqn:E.
    + left. symmetry. apply eqb_spec. exact E.
    + right. split; [exact H|]. reflexivity.
Qed.

Lemma NoDup_unique (s : list A) : NoDup (unique eqb s).
Proof.
  induction s as [|y s IH]; simpl; constructor.
  - rewrite filter_In. intros [_ H].
    assert (E : eqb y y = true) by (apply eqb_spec; reflexivity).
    rewrite E in H. discriminate H.
  - apply NoDup_filter. exact IH.
Qed.

Variable leb : A -> A -> bool.

Lemma insert_sorted_perm (x : A) (l : list A) :
  Permutation (x :: l) (insert_sorted leb x l).
Proof.
  induction l as [|y l IH]; simpl; [reflexivity|].
  destruct (leb x y); [reflexivity|].
  rewrite perm_swap. constructor. exact IH.
Qed.

Lemma sorted_perm (l : list A) : Permutation l (sorted leb l).
Proof.
  induction l as [|x l IH]; simpl; [constructor|].
  rewrite <- insert_sorted_perm. constructor. exact IH.
Qed.

Lemma In_sorted (x : A) (l : list A) : In x (sorted leb l) <-> In x l.
Proof.
  split; apply Permutation_in;
    [symmetry|]; apply sorted_perm.
Qed.

(** Every cell of a column is among the sorted distinct values of it. *)
Lemma isin_disponiveis (x : A) (s : list A) :
  In x s -> existsb (eqb x) (sorted leb (unique eqb s)) = true.
Proof.
  intros H. apply existsb_eqb_In, In_sorted, In_unique. exact H.
Qed.

End Membership.

Lemma Zeqb_spec' (x y : Z) : Z.eqb x y = true <-> x = y.
Proof. apply Z.eqb_eq. Qed.

Lemma Seqb_spec' (x y : string) : String.eqb x y = true <-> x = y.
Proof. apply String.eqb_eq. Qed.

(** ** The filter engine *)

Lemma selecionada_iff (sel : FilterSelection) (r : Row) :
  selecionada sel r = true <-> Selecionada sel r.
Proof.
  unfold selecionada, Selecionada.
  rewrite !andb_true_iff.
  rewrite (existsb_eqb_In Z.eqb Zeqb_spec').
  rewrite !(existsb_eqb_In String.eqb Seqb_spec').
  tauto.
Qed.

Lemma df_filtrado_filter (df : DataFrame) (sel : FilterSelection) :
  df_filtrado df sel = filter (selecionada sel) df.
Proof.
  unfold df_filtrado.
  rewrite !isin_col, !mask_and_map.
  apply getitem_mask_map.
Qed.

(** C3.  The filtered table consists of exactly the rows of the table whose
    year is among the selected years, whose region is among the selected
    regions and whose product is among the selected products: it is the
    table restricted to the conjunction of the three membership tests, rows
    kept in their order and with their multiplicity. *)
Theorem df_filtrado_conjunction (df : DataFrame) (sel : FilterSelection) :
  df_filtrado df sel = filter (selecionada sel) df
  /\ (forall r, selecionada sel r = true <-> Selecionada sel r)
  /\ (forall r, In r (df_filtrado df sel) <-> In r df /\ Selecionada sel r).
Proof.
  split; [apply df_filtrado_filter|].
  split; [apply selecionada_iff|].
  intros r. rewrite df_filtrado_filter, filter_In, selecionada_iff.
  reflexivity.
Qed.

(** C4.  With the default selection (every available year, region and
    product) the filter returns the table itself. *)
Theorem df_filtrado_default_identity (df : DataFrame) :
  df_filtrado df (default_selection df) = df.
Proof.
  rewrite df_filtrado_filter.
  apply filter_all_true. intros r Hr.
  unfold selecionada, default_selection; simpl.
  unfold anos_disponiveis, regioes_disponiveis, produtos_disponiveis.
  rewrite (isin_disponiveis Z.eqb Zeqb_spec' Z.leb) by (apply in_map; exact Hr).
  rewrite (isin_disponiveis String.eqb Seqb_spec' String.leb (regiao r))
    by (apply (in_map regiao); exact Hr).
  rewrite (isin_disponiveis String.eqb Seqb_spec' String.leb (produto r))
    by (apply (in_map produto); exact Hr).
  reflexivity.
Qed.

(** C5.  An empty selection on any one of the three dimensions selects no
    row: the filter returns the empty table (a value, not an error). *)
Theorem df_filtrado_empty_selection (df : DataFrame) (sel : FilterSelection) :
  anos_selecionados sel = []
  \/ regioes_selecionadas sel = []
  \/ produtos_selecionados sel = [] ->
  df_filtrado df sel = [].
Proof.
  intros H. rewrite df_filtrado_filter.
  apply filter_all_false. intros r _.
  unfold selecionada.
  destruct H as [H|[H|H]]; rewrite H; simpl.
  - reflexivity.
  - rewrite andb_false_r. reflexivity.
  - apply andb_false_r.
Qed.

(** ** Derived columns *)

(** Division by a zero of either sign; the scaling by 100 and the rounding
    to two decimals let NaN and the infinities through. *)
Lemma div_by_zero (x d : float64) :
  is_zero d = true ->
  div x d =
    if is_zero x || isnan x then nan
    else S754_infinity (xorb (signbit x) (signbit d)).
Proof.
  destruct d as [sd| | |]; try discriminate. intros _.
  destruct x as [sx|sx| |sx mx ex]; reflexivity.
Qed.

Lemma mul_100_special (x : float64) :
  is_finite x = false -> mul x (of_Z 100) = x.
Proof.
  destruct x as [s|s| |s m e]; try discriminate; intros _.
  - destruct s; reflexivity.
  - reflexivity.
Qed.

Lemma round_2_special (x : float64) :
  is_finite x = false -> round x 2 = x.
Proof.
  destruct x as [s|s| |s m e]; try discriminate; intros _.
  - destruct s; reflexivity.
  - reflexivity.
Qed.

(** C1 (amended).  The derived [roi] is computed in floating point and never
    raises.  When [custo_unitario * quantidade_vendida] is not zero it is
    [(lucro_bruto / (custo_unitario * quantidade_vendida)) * 100] rounded to
    two decimals.  When that product is zero, [roi] is NaN only if the gross
    profit is itself zero or NaN; for any other gross profit it is an
    infinity, whose sign is the sign of the gross profit combined with the
    sign of the zero. *)
Theorem roi_derived (raw : RawRow) :
  let lucro := raw_lucro_bruto raw in
  let d := mul (raw_custo_unitario raw) (of_Z (raw_quantidade_vendida raw)) in
  roi (derive raw) =
    if is_zero d then
      if is_zero lucro || isnan lucro then nan
      else S754_infinity (xorb (signbit lucro) (signbit d))
    else
      roi_spec lucro (raw_custo_unitario raw) (raw_quantidade_vendida raw).
Proof.
  intros lucro d. simpl. unfold roi_of, roi_spec. fold d. fold lucro.
  destruct (is_zero d) eqn:Hd; [|reflexivity].
  rewrite (div_by_zero lucro d Hd).
  destruct (is_zero lucro || isnan lucro).
  - reflexivity.
  - rewrite mul_100_special by reflexivity.
    apply round_2_special. reflexivity.
Qed.

(** C1, as stated, fails: five units of cost zero sold with a gross profit of
    10 have a zero cost basis, and their [roi] is plus infinity, which is
    not null. *)
Lemma roi_zero_cost_is_infinite :
  let r := derive venda_custo_zero in
  is_zero (mul (custo_unitario r) (of_Z (quantidade_vendida r))) = true
  /\ roi r = pinf
  /\ isnan (roi r) = false
  /\ roi r <> roi_spec (lucro_bruto r) (custo_unitario r) (quantidade_vendida r).
Proof.
  repeat split; try reflexivity.
  vm_compute. discriminate.
Qed.

(** C2 (amended).  [semestre] is ["S1"] when the calendar month of the row's
    date is at most 6 and ["S2"] otherwise (also for a missing date);
    [ano_semestre] is the decimal string of the row's year, a hyphen, and
    that half. *)
Theorem ano_semestre_derived (raw : RawRow) :
  let r := derive raw in
  semestre r =
    match data r with
    | Some t => if (month t <=? 6)%Z then "S1" else "S2"
    | None => "S2"
    end
  /\ (semestre r = "S1" \/ semestre r = "S2")
  /\ ano_semestre r = str_int (ano r) ++ "-" ++ semestre r.
Proof.
  simpl. unfold semestre_of, data; simpl.
  repeat split.
  destruct (raw_data raw) as [t|]; [destruct (month t <=? 6)%Z|]; auto.
Qed.

(** C2, as stated, fails: for a sale of March 2023 the label is
    ["2023-S1"], not the year directly followed by the half. *)
Lemma ano_semestre_has_hyphen :
  let r := derive venda_custo_zero in
  ano r = 2023%Z
  /\ semestre r = "S1"
  /\ ano_semestre r = "2023-S1"
  /\ ano_semestre r <> ano_semestre_spec (ano r) (semestre r).
Proof.
  repeat split; try reflexivity.
  vm_compute. discriminate.
Qed.

(** ** The metrics aggregator *)

Lemma faturamento_ano_filter (df : DataFrame) (y : Z) :
  faturamento_ano df y = receita_do_ano df y.
Proof.
  unfold faturamento_ano, receita_do_ano.
  rewrite eq_scalar_col, getitem_mask_map. reflexivity.
Qed.

Lemma receita_do_ano_absent (df : DataFrame) (y : Z) :
  (forall r, In r df -> ano r <> y) -> receita_do_ano df y = zero.
Proof.
  intros H. unfold receita_do_ano.
  rewrite filter_all_false; [reflexivity|].
  intros r Hr. apply Z.eqb_neq. apply H. exact Hr.
Qed.

Lemma crescimento_yoy_eq (df : DataFrame) :
  Metricas.crescimento_yoy (calcular_metricas_principais df) =
  crescimento (faturamento_ano df 2024) (faturamento_ano df 2023).
Proof. reflexivity. Qed.

Lemma crescimento_zero_anterior (atual anterior : float64) :
  is_zero anterior = true ->
  crescimento atual anterior =
    if is_zero atual || isnan atual then nan
    else S754_infinity (xorb (signbit atual) (signbit anterior)).
Proof.
  unfold crescimento.
  destruct anterior as [sb| | |]; try discriminate. intros _.
  destruct atual as [sa|sa| |sa ma ea]; simpl.
  - destruct sa, sb; reflexivity.
  - destruct sa, sb; reflexivity.
  - reflexivity.
  - destruct sa, sb; reflexivity.
Qed.

Lemma df_filtrado_so_regioes (df : DataFrame) (regioes : list string) :
  df_filtrado df (so_regioes df regioes) =
  filter (fun r => existsb (String.eqb (regiao r)) regioes) df.
Proof.
  rewrite df_filtrado_filter.
  apply filter_ext_in. intros r Hr.
  unfold selecionada, so_regioes; simpl.
  unfold anos_disponiveis, produtos_disponiveis.
  rewrite (isin_disponiveis Z.eqb Zeqb_spec' Z.leb) by (apply in_map; exact Hr).
  rewrite (isin_disponiveis String.eqb Seqb_spec' String.leb (produto r))
    by (apply (in_map produto); exact Hr).
  rewrite andb_true_r. reflexivity.
Qed.

(** C6.  The growth reported by the aggregator is
    [(revenue_2024 - revenue_2023) / revenue_2023 * 100] over its input
    table.  On any table whose 2023 revenue is 100 and whose 2024 revenue is
    150 it is 50.0.  On the table of three rows (A, 2023, 100),
    (A, 2024, 120), (B, 2023, 50), whatever their other columns, keeping
    region A alone gives 20.0 and keeping region B alone gives -100.0. *)
Theorem crescimento_yoy_examples (df : DataFrame) (r1 r2 r3 : Row) :
  faturamento_ano df 2023 = of_Z 100 ->
  faturamento_ano df 2024 = of_Z 150 ->
  regiao r1 = "A" /\ ano r1 = 2023%Z /\ faturamento r1 = of_Z 100 ->
  regiao r2 = "A" /\ ano r2 = 2024%Z /\ faturamento r2 = of_Z 120 ->
  regiao r3 = "B" /\ ano r3 = 2023%Z /\ faturamento r3 = of_Z 50 ->
  let yoy t := Metricas.crescimento_yoy (calcular_metricas_principais t) in
  let tabela := [r1; r2; r3] in
  yoy df =
    mul (div (sub (faturamento_ano df 2024) (faturamento_ano df 2023))
             (faturamento_ano df 2023))
        (of_Z 100)
  /\ yoy df = of_Z 50
  /\ yoy (df_filtrado tabela (so_regioes tabela ["A"])) = of_Z 20
  /\ yoy (df_filtrado tabela (so_regioes tabela ["B"])) = of_Z (-100).
Proof.
  intros H23 H24 (Hr1 & Ha1 & Hf1) (Hr2 & Ha2 & Hf2) (Hr3 & Ha3 & Hf3)
         yoy tabela.
  split; [reflexivity|].
  split.
  - unfold yoy. rewrite crescimento_yoy_eq, H23, H24. reflexivity.
  - unfold yoy, tabela.
    rewrite !df_filtrado_so_regioes, !crescimento_yoy_eq.
    rewrite !faturamento_ano_filter. unfold receita_do_ano.
    simpl filter at 2 4 6 8.
    rewrite Hr1, Hr2, Hr3. simpl.
    rewrite Ha1, Ha2, Ha3. simpl.
    unfold faturamento in *.
    rewrite ?Hf1, ?Hf2, ?Hf3.
    split; reflexivity.
Qed.

Lemma crescimento_yoy_examples_witness :
  let yoy t := Metricas.crescimento_yoy (calcular_metricas_principais t) in
  let tabela := [cenario_r1; cenario_r2; cenario_r3] in
  yoy tabela_100_150 = of_Z 50
  /\ yoy (df_filtrado tabela (so_regioes tabela ["A"])) = of_Z 20
  /\ yoy (df_filtrado tabela (so_regioes tabela ["B"])) = of_Z (-100).
Proof.
  apply (crescimento_yoy_examples tabela_100_150
           cenario_r1 cenario_r2 cenario_r3);
    repeat split; reflexivity.
Defined.

(** C7 (amended).  When the 2023 revenue is zero the aggregator performs the
    division as it stands, in floating point, and does not raise: the growth
    is NaN when the 2024 revenue is zero too (or NaN), and otherwise plus or
    minus infinity, by the signs of the 2024 revenue and of the zero. *)
Theorem crescimento_yoy_zero_prior_year (df : DataFrame) :
  let m := calcular_metricas_principais df in
  is_zero (Metricas.faturamento_2023 m) = true ->
  Metricas.crescimento_yoy m =
    if is_zero (Metricas.faturamento_2024 m)
       || isnan (Metricas.faturamento_2024 m)
    then nan
    else S754_infinity (xorb (signbit (Metricas.faturamento_2024 m))
                             (signbit (Metricas.faturamento_2023 m))).
Proof.
  intros m H. subst m. simpl in *.
  apply crescimento_zero_anterior. exact H.
Qed.

Lemma crescimento_yoy_zero_prior_year_witness :
  Metricas.crescimento_yoy (calcular_metricas_principais tabela_outros_anos)
  = nan.
Proof.
  apply (crescimento_yoy_zero_prior_year tabela_outros_anos).
  reflexivity.
Defined.

(** C7, as stated, fails: on a table with a single 2024 sale of revenue 150
    the 2023 revenue is zero and the reported growth is plus infinity. *)
Lemma crescimento_yoy_infinite :
  let m := calcular_metricas_principais tabela_so_2024 in
  Metricas.faturamento_2023 m = zero
  /\ Metricas.faturamento_2024 m = of_Z 150
  /\ Metricas.crescimento_yoy m = pinf
  /\ isnan (Metricas.crescimento_yoy m) = false.
Proof. repeat split. Qed.

Lemma crescimento_sem_2023_2024 (df : DataFrame) :
  (forall r, In r df -> ano r <> 2023%Z /\ ano r <> 2024%Z) ->
  receita_do_ano df 2023 = zero
  /\ receita_do_ano df 2024 = zero
  /\ Metricas.crescimento_yoy (calcular_metricas_principais df) = nan.
Proof.
  intros H.
  assert (H23 : receita_do_ano df 2023 = zero)
    by (apply receita_do_ano_absent; intros r Hr; apply H; exact Hr).
  assert (H24 : receita_do_ano df 2024 = zero)
    by (apply receita_do_ano_absent; intros r Hr; apply H; exact Hr).
  repeat split; try assumption.
  rewrite crescimento_yoy_eq, !faturamento_ano_filter, H23, H24.
  reflexivity.
Qed.

(** The years selected in the sidebar do not change which years are
    compared: with neither 2023 nor 2024 selected the totals are still those
    of 2023 and 2024 within the filtered table, both zero. *)
Lemma crescimento_yoy_ignores_selected_years (df : DataFrame)
    (sel : FilterSelection) :
  ~ In 2023%Z (anos_selecionados sel) ->
  ~ In 2024%Z (anos_selecionados sel) ->
  Metricas.crescimento_yoy (calcular_metricas_principais (df_filtrado df sel))
  = nan.
Proof.
  intros H23 H24.
  apply crescimento_sem_2023_2024.
  intros r Hr.
  rewrite df_filtrado_filter, filter_In, selecionada_iff in Hr.
  destruct Hr as [_ [Ha _]].
  split; intros E; rewrite E in Ha; contradiction.
Qed.

Lemma filter_twice {R : Type} (f g : R -> bool) (l : list R) :
  filter f (filter g l) = filter (fun x => g x && f x) l.
Proof.
  induction l as [|x l IH]; simpl; [reflexivity|].
  destruct (g x); simpl; [destruct (f x)|]; rewrite IH; reflexivity.
Qed.

(** The fuel of [pairwise_sum] never runs out: any amount from the length
    of the array on gives the same sum. *)
Lemma pairwise_sum_fuel (fuel fuel' : nat) (a : list float64) :
  (List.length a <= fuel)%nat ->
  (List.length a <= fuel')%nat ->
  pairwise_sum fuel a = pairwise_sum fuel' a.
Proof.
  revert fuel' a.
  induction fuel as [|fuel IH]; intros fuel' a H H'.
  - destruct a as [|x a]; [|simpl in H; lia].
    destruct fuel'; reflexivity.
  - destruct fuel' as [|fuel'].
    + destruct a as [|x a]; [|simpl in H'; lia]. reflexivity.
    + cbn [pairwise_sum]. cbv zeta.
      destruct (List.length a <? 8)%nat eqn:E8; [reflexivity|].
      destruct (List.length a <=? 128)%nat eqn:E128; [reflexivity|].
      apply Nat.leb_gt in E128.
      set (n := List.length a) in *.
      assert (Hh : (2 * (n / 2) <= n)%nat)
        by (apply Nat.Div0.mul_div_le).
      assert (Hd : (n < 2 * (n / 2) + 2)%nat).
      { pose proof (Nat.div_mod_eq n 2) as E.
        pose proof (Nat.mod_upper_bound n 2 ltac:(discriminate)). lia. }
      assert (Hm : ((n / 2) mod 8 < 8)%nat)
        by (apply Nat.mod_upper_bound; discriminate).
      f_equal; apply IH; rewrite ?length_firstn, ?length_skipn;
        fold n; lia.
Qed.


(** On nine cells numpy's eight accumulators keep what a sum in index order
    loses, and so does the compensated sum of a group on four. *)
Lemma nansum_nove_parcelas :
  nansum nove_parcelas = of_Z 2
  /\ fold_left add nove_parcelas zero = zero
  /\ group_sum [of_Z (10 ^ 16); of_Z 1; of_Z 1; of_Z (- 10 ^ 16)] = of_Z 2.
Proof. repeat split; vm_compute; reflexivity. Qed.




(** ** Grouping *)

Section Groupby.

Variable key : Row -> string.

Lemma filter_disjoint_perm (p q : Row -> bool) (df : DataFrame) :
  (forall r, In r df -> p r && q r = false) ->
  Permutation (filter p df ++ filter q df) (filter (fun r => p r || q r) df).
Proof.
  induction df as [|r df IH]; simpl; intros H; [constructor|].
  assert (Hr := H r (or_introl eq_refl)).
  assert (IH' := IH (fun r' Hr' => H r' (or_intror Hr'))).
  destruct (p r), (q r); simpl in *; try discriminate.
  - constructor. exact IH'.
  - rewrite <- Permutation_middle. constructor. exact IH'.
  - exact IH'.
Qed.

(** The groups of distinct keys, put end to end, are the rows whose key is
    one of them. *)
Lemma groups_concat_perm (keys : list string) (df : DataFrame) :
  NoDup keys ->
  Permutation
    (List.concat (map (fun k => filter (fun r => String.eqb (key r) k) df) keys))
    (filter (fun r => existsb (String.eqb (key r)) keys) df).
Proof.
  induction 1 as [|k keys Hk Hnd IH]; simpl.
  - rewrite filter_all_false by reflexivity. constructor.
  - rewrite IH. apply filter_disjoint_perm.
    intros r _.
    destruct (String.eqb (key r) k) eqn:E; [|reflexivity].
    apply String.eqb_eq in E. simpl.
    destruct (existsb (String.eqb (key r)) keys) eqn:E'; [|reflexivity].
    apply (existsb_eqb_In String.eqb Seqb_spec') in E'.
    rewrite E in E'. contradiction.
Qed.

Lemma groupby_keys (df : DataFrame) :
  map fst (groupby key df) = sorted String.leb (unique String.eqb (col key df)).
Proof.
  unfold groupby. rewrite map_map. simpl. apply map_id.
Qed.

Lemma groupby_keys_NoDup (df : DataFrame) : NoDup (map fst (groupby key df)).
Proof.
  rewrite groupby_keys.
  eapply Permutation_NoDup; [apply sorted_perm|].
  apply NoDup_unique. exact Seqb_spec'.
Qed.

Lemma groupby_keys_In (df : DataFrame) (k : string) :
  In k (map fst (groupby key df)) <-> exists r, In r df /\ key r = k.
Proof.
  rewrite groupby_keys, In_sorted, (In_unique String.eqb Seqb_spec').
  unfold col. rewrite in_map_iff. split; intros [r [H1 H2]]; exists r; tauto.
Qed.

Lemma groupby_rows (df : DataFrame) :
  Permutation (List.concat (map snd (groupby key df))) df.
Proof.
  unfold groupby. rewrite map_map. simpl.
  rewrite groups_concat_perm.
  - rewrite filter_all_true; [reflexivity|].
    intros r Hr. apply (isin_disponiveis String.eqb Seqb_spec' String.leb).
    apply (in_map key). exact Hr.
  - rewrite <- groupby_keys. apply groupby_keys_NoDup.
Qed.

Lemma groupby_group (df : DataFrame) (g : string * DataFrame) :
  In g (groupby key df) ->
  snd g = filter (fun r => String.eqb (key r) (fst g)) df /\ snd g <> [].
Proof.
  intros Hg.
  assert (Hk : In (fst g) (map fst (groupby key df))) by (apply in_map; exact Hg).
  unfold groupby in Hg. apply in_map_iff in Hg.
  destruct Hg as [k [Hg _]]. subst g. simpl in *.
  split; [reflexivity|].
  apply groupby_keys_In in Hk. destruct Hk as [r [Hr Hkey]].
  intros E.
  assert (Hin : In r (filter (fun r0 => String.eqb (key r0) k) df)).
  { apply filter_In. split; [exact Hr|]. apply String.eqb_eq. exact Hkey. }
  rewrite E in Hin. exact Hin.
Qed.

End Groupby.

(** ** Exact sums *)

Lemma soma_exata_app (v : Row -> Q) (a b : DataFrame) :
  (soma_exata v (a ++ b)%list == soma_exata v a + soma_exata v b)%Q.
Proof.
  induction a as [|r a IH]; simpl.
  - ring.
  - rewrite IH. ring.
Qed.

Lemma soma_exata_perm (v : Row -> Q) (a b : DataFrame) :
  Permutation a b -> (soma_exata v a == soma_exata v b)%Q.
Proof.
  induction 1 as [|r a b _ IH|r r' a|a b c _ IH1 _ IH2]; simpl.
  - reflexivity.
  - rewrite IH. reflexivity.
  - ring.
  - rewrite IH1. exact IH2.
Qed.

Lemma soma_exata_concat (v : Row -> Q) (gs : list (string * DataFrame)) :
  (soma_exata_grupos v gs == soma_exata v (List.concat (map snd gs)))%Q.
Proof.
  induction gs as [|g gs IH]; simpl.
  - reflexivity.
  - rewrite soma_exata_app, IH. reflexivity.
Qed.

Lemma resumo_categoria_keys (df : DataFrame) :
  map fst (resumo_categoria df) = map fst (groupby categoria df).
Proof. unfold resumo_categoria. rewrite map_map. reflexivity. Qed.

(** The compensated sum of a single cell is that cell added to [0.0]. *)
Lemma group_sum_single (x : float64) :
  isnan x = false ->
  round (group_sum [x]) 2 = round (add zero x) 2.
Proof.
  intros Hx. unfold group_sum. cbn [filter]. rewrite Hx. cbn [negb fold_left].
  unfold kahan_add. cbn [fst snd]. f_equal. f_equal.
  destruct x as [s|s| |s m e]; try reflexivity; destruct s; reflexivity.
Qed.

(** The revenue total of a line of the summary is computed from the rows of
    the line's own category, taken in index order. *)
Lemma resumo_categoria_faturamento (df : DataFrame) :
  Forall (fun l =>
            res_faturamento (snd l) =
            round (group_sum
                     (col faturamento
                        (filter (fun r => String.eqb (categoria r) (fst l)) df)))
                  2)
         (resumo_categoria df).
Proof.
  apply Forall_forall. intros l Hl.
  unfold resumo_categoria in Hl. apply in_map_iff in Hl.
  destruct Hl as [g [El Hg]]. subst l. cbn [fst snd res_faturamento].
  destruct (groupby_group categoria df g Hg) as [Eg _].
  f_equal. f_equal. f_equal. exact Eg.
Qed.

Lemma soma_exata_groupby (key : Row -> string) (v : Row -> Q) (df : DataFrame) :
  (soma_exata_grupos v (groupby key df) == soma_exata v df)%Q.
Proof.
  rewrite soma_exata_concat.
  apply soma_exata_perm, groupby_rows.
Qed.

(** C8 (amended).  The per-category groups partition the rows of the
    filtered table: put end to end they are a rearrangement of the table, a
    category has a line in the summary exactly when some row has it (no line
    for an empty group), no category has two lines, and no group is empty.
    Hence revenue summed exactly over the groups is the exact total revenue
    of the table.  The revenue total of each line of the summary is the
    compensated binary64 sum of the revenue of the rows of that line's
    category, in index order, rounded to two decimals; for a category with
    a single row, of revenue [x] that is not NaN, it is [0.0 + x] rounded to
    two decimals. *)
Theorem resumo_categoria_partition (df : DataFrame) :
  let grupos := groupby categoria df in
  map fst (resumo_categoria df) = map fst grupos
  /\ Permutation (List.concat (map snd grupos)) df
  /\ NoDup (map fst (resumo_categoria df))
  /\ (forall k, In k (map fst (resumo_categoria df)) <->
                exists r, In r df /\ categoria r = k)
  /\ Forall (fun g =>
               snd g = filter (fun r => String.eqb (categoria r) (fst g)) df
               /\ snd g <> []) grupos
  /\ Forall (fun l =>
               res_faturamento (snd l) =
               round (group_sum
                        (col faturamento
                           (filter (fun r => String.eqb (categoria r) (fst l))
                                   df)))
                     2)
            (resumo_categoria df)
  /\ (forall l r,
        In l (resumo_categoria df) ->
        filter (fun r' => String.eqb (categoria r') (fst l)) df = [r] ->
        isnan (faturamento r) = false ->
        res_faturamento (snd l) = round (add zero (faturamento r)) 2)
  /\ (soma_exata_grupos receita_exata grupos == soma_exata receita_exata df)%Q.
Proof.
  intros grupos. subst grupos.
  rewrite resumo_categoria_keys.
  split; [reflexivity|].
  split; [apply groupby_rows|].
  split; [apply groupby_keys_NoDup|].
  split; [apply groupby_keys_In|].
  split; [apply Forall_forall; intros g Hg; apply groupby_group; exact Hg|].
  split; [apply resumo_categoria_faturamento|].
  split; [|apply soma_exata_groupby].
  intros l r Hl Hr Hx.
  rewrite (proj1 (Forall_forall _ _) (resumo_categoria_faturamento df) l Hl).
  rewrite Hr. apply group_sum_single. exact Hx.
Qed.

(** The summary of the two sales of 0.125: the line of the first category
    holds 0.0 + 0.125 rounded to two decimals, which is 0.12. *)
Lemma resumo_categoria_partition_witness :
  let l := nth 0 (resumo_categoria tabela_oitavos)
             (EmptyString, mkResumo zero 0 zero) in
  let r := derive (venda 2023 1 "A" "Mouse" "Acessorios" (of_decimal 125 3)) in
  fst l = "Acessorios"%string
  /\ faturamento r = of_decimal 125 3
  /\ res_faturamento (snd l) = round (add zero (faturamento r)) 2
  /\ round (add zero (faturamento r)) 2 = of_decimal 12 2.
Proof.
  intros l r.
  split; [reflexivity|]. split; [reflexivity|]. split; [|reflexivity].
  apply (proj1 (proj2 (proj2 (proj2 (proj2 (proj2 (proj2
           (resumo_categoria_partition tabela_oitavos)))))))).
  - left. reflexivity.
  - reflexivity.
  - reflexivity.
Defined.

(** C8, as stated, fails: with one sale of 0.125 in each of two categories
    both grouped totals are 0.12, they add up to 0.24, and the total revenue
    is 0.25. *)
Lemma resumo_categoria_not_additive :
  let totais :=
    map (fun l => res_faturamento (snd l)) (resumo_categoria tabela_oitavos) in
  let total :=
    Metricas.faturamento_total (calcular_metricas_principais tabela_oitavos) in
  totais = [of_decimal 12 2; of_decimal 12 2]
  /\ nansum totais = of_decimal 24 2
  /\ total = of_decimal 25 2
  /\ Float64.eqb (nansum totais) total = false.
Proof. repeat split. Qed.

(** Without the rounding the binary64 sums need not add up either: the
    accumulation in index order absorbs the small sale between a sale of
    1e16 and its reversal, the grouped sums do not. *)
Lemma faturamento_por_categoria_not_additive :
  let totais := map snd (faturamento_por_categoria tabela_estorno) in
  let total :=
    Metricas.faturamento_total (calcular_metricas_principais tabela_estorno) in
  totais = [of_Z 1; zero]
  /\ nansum totais = of_Z 1
  /\ total = zero.
Proof. repeat split. Qed.

Lemma df_filtrado_empty_selection_witness :
  df_filtrado tabela_100_150 (mkSelection [] ["A"] ["Mouse"]) = []
  /\ df_filtrado tabela_100_150 (mkSelection [2023; 2024]%Z [] ["Mouse"]) = []
  /\ df_filtrado tabela_100_150 (mkSelection [2023; 2024]%Z ["A"] []) = [].
Proof.
  split; [|split]; apply df_filtrado_empty_selection; simpl.
  - left. reflexivity.
  - right. left. reflexivity.
  - right. right. reflexivity.
Defined.

(** ** The script when the file is absent *)

(** C9.  With the CSV file absent the loader returns [None] after one error
    message and raises nothing; the script then ends normally, having made
    only the calls that precede the load, shown the two error messages and
    written the footer that closes every run: the filtered table and the
    metrics are never computed, no filter widget and no page body is
    rendered. *)
Theorem script_missing_file (ui : UserInput) :
  carregar_dados Absent [] =
    (Returned None, [StError msg_arquivo_nao_encontrado])
  /\ script Absent ui [] =
       (Returned {| ses_df := None;
                    ses_df_filtrado := None;
                    ses_metricas := None |},
        [SetPageConfig; MarkdownCss; SidebarImage; SidebarTitle; SidebarRule;
         SidebarSelectbox (pagina ui); SidebarRule;
         StError msg_arquivo_nao_encontrado;
         StError msg_nao_foi_possivel;
         FooterRule; Footer])
  /\ Forall (fun c => uses_data c = false) (snd (script Absent ui [])).
Proof.
  split; [reflexivity|].
  split; [reflexivity|].
  repeat constructor.
Qed.

(** The rows [pd.to_datetime] gives: those of the lines, when every date
    cell is empty or parses. *)
Lemma parse_linhas_spec (linhas : list CsvLinha) :
  parse_linhas linhas =
    if forallb legivel linhas then Some (map linha_lida linhas) else None.
Proof.
  induction linhas as [|l linhas IH]; [reflexivity|].
  simpl. rewrite IH. unfold legivel, linha_lida.
  destruct (csv_data l); simpl; try reflexivity;
    destruct (forallb _ linhas); reflexivity.
Qed.

Lemma carregar_dados_legivel (linhas : list CsvLinha) :
  forallb legivel linhas = true ->
  carregar_dados (Present linhas) [] =
    (Returned (Some (add_features (map linha_lida linhas))), []).
Proof.
  intros H. unfold carregar_dados, try_except, to_datetime, read_csv.
  cbn [Script.bind Script.ret]. rewrite parse_linhas_spec, H. reflexivity.
Qed.

Lemma carregar_dados_ilegivel (linhas : list CsvLinha) :
  forallb legivel linhas = false ->
  carregar_dados (Present linhas) [] = (Raised OtherError, []).
Proof.
  intros H. unfold carregar_dados, try_except, to_datetime, read_csv.
  cbn [Script.bind Script.ret]. rewrite parse_linhas_spec, H. reflexivity.
Qed.

(** With the file present and every date readable the session goes through
    the filters, the metrics, the page body and the footer. *)
Lemma script_present (linhas : list CsvLinha) (ui : UserInput) :
  forallb legivel linhas = true ->
  let df := add_features (map linha_lida linhas) in
  let sel :=
    {| anos_selecionados := escolhe_anos ui (anos_disponiveis df);
       regioes_selecionadas := escolhe_regioes ui (regioes_disponiveis df);
       produtos_selecionados := escolhe_produtos ui (produtos_disponiveis df) |} in
  let filtrado := df_filtrado df sel in
  let metricas := calcular_metricas_principais filtrado in
  script (Present linhas) ui [] =
    (Returned {| ses_df := Some df;
                 ses_df_filtrado := Some filtrado;
                 ses_metricas := Some metricas |},
     [SetPageConfig; MarkdownCss; SidebarImage; SidebarTitle; SidebarRule;
      SidebarSelectbox (pagina ui); SidebarRule;
      SidebarSubheader;
      MultiselectAnos (anos_disponiveis df) (anos_disponiveis df);
      MultiselectRegioes (regioes_disponiveis df) (regioes_disponiveis df);
      MultiselectProdutos (produtos_disponiveis df) (produtos_disponiveis df);
      PageBody (pagina ui) df filtrado metricas;
      FooterRule; Footer]).
Proof.
  intros H. unfold script, carregar_dados, try_except, to_datetime, read_csv.
  cbn [Script.bind Script.ret Script.st app].
  rewrite parse_linhas_spec, H. reflexivity.
Qed.

(** An unreadable date stops the script after the navigation sidebar. *)
Lemma script_ilegivel (linhas : list CsvLinha) (ui : UserInput) :
  forallb legivel linhas = false ->
  script (Present linhas) ui [] =
    (Raised OtherError,
     [SetPageConfig; MarkdownCss; SidebarImage; SidebarTitle; SidebarRule;
      SidebarSelectbox (pagina ui); SidebarRule]).
Proof.
  intros H. unfold script, carregar_dados, try_except, to_datetime, read_csv.
  cbn [Script.bind Script.ret Script.st app].
  rewrite parse_linhas_spec, H. reflexivity.
Qed.

(** Any other failure of the read is not handled by the loader. *)
Lemma script_unreadable (ui : UserInput) :
  fst (script Unreadable ui []) = Raised OtherError.
Proof. reflexivity. Qed.

(** ** More on the filters and the widget options *)

(** X2.  Filtering an already filtered table: the second selection applies
    to what the first one kept, so the order of the two does not matter, the
    same selection twice changes nothing, and a row survives exactly when it
    is in the table and passes both. *)
Theorem df_filtrado_twice (df : DataFrame) (s1 s2 : FilterSelection) :
  df_filtrado (df_filtrado df s1) s2 = df_filtrado (df_filtrado df s2) s1
  /\ df_filtrado (df_filtrado df s1) s1 = df_filtrado df s1
  /\ (forall r, In r (df_filtrado (df_filtrado df s1) s2) <->
                In r df /\ Selecionada s1 r /\ Selecionada s2 r).
Proof.
  rewrite !df_filtrado_filter, !filter_twice.
  split; [|split].
  - apply filter_ext. intros r. apply andb_comm.
  - apply filter_ext. intros r. apply andb_diag.
  - intros r. rewrite filter_In, andb_true_iff, !selecionada_iff. tauto.
Qed.

Section SortedFacts.

Context {A : Type} (leb : A -> A -> bool).
Hypothesis leb_total : forall x y, leb x y = true \/ leb y x = true.
Hypothesis leb_trans :
  forall x y z, leb x y = true -> leb y z = true -> leb x z = true.

Lemma insert_sorted_In (x y : A) (l : list A) :
  In y (insert_sorted leb x l) <-> y = x \/ In y l.
Proof.
  split.
  - intros H. apply (Permutation_in _ (Permutation_sym (insert_sorted_perm leb x l))) in H.
    destruct H as [H|H]; [left; symmetry; exact H|right; exact H].
  - intros H. apply (Permutation_in _ (insert_sorted_perm leb x l)).
    destruct H as [H|H]; [left; symmetry; exact H|right; exact H].
Qed.

Lemma insert_sorted_sorted (x : A) (l : list A) :
  StronglySorted (fun a b => leb a b = true) l ->
  StronglySorted (fun a b => leb a b = true) (insert_sorted leb x l).
Proof.
  induction 1 as [|y l Hs IH Hy]; simpl.
  - constructor; constructor.
  - destruct (leb x y) eqn:E.
    + constructor; [constructor; assumption|].
      constructor; [exact E|].
      rewrite Forall_forall in *. intros z Hz.
      apply (leb_trans x y z E). apply Hy. exact Hz.
    + constructor; [exact IH|].
      rewrite Forall_forall in *. intros z Hz.
      apply insert_sorted_In in Hz. destruct Hz as [Hz|Hz].
      * subst z. destruct (leb_total x y) as [H|H]; [congruence|exact H].
      * apply Hy. exact Hz.
Qed.

Lemma sorted_sorted (l : list A) :
  StronglySorted (fun a b => leb a b = true) (sorted leb l).
Proof.
  induction l as [|x l IH]; simpl; [constructor|].
  apply insert_sorted_sorted. exact IH.
Qed.

End SortedFacts.

Lemma Zleb_total (x y : Z) : (x <=? y)%Z = true \/ (y <=? x)%Z = true.
Proof. rewrite !Z.leb_le. lia. Qed.

Lemma Zleb_trans (x y z : Z) :
  (x <=? y)%Z = true -> (y <=? z)%Z = true -> (x <=? z)%Z = true.
Proof. rewrite !Z.leb_le. lia. Qed.

Lemma StronglySorted_weaken {A : Type} (P Q : A -> A -> Prop) (l : list A) :
  (forall a b, P a b -> Q a b) -> StronglySorted P l -> StronglySorted Q l.
Proof.
  intros HPQ. induction 1 as [|x l Hs IH Hx]; constructor; [exact IH|].
  eapply Forall_impl; [|exact Hx]. intros b. apply HPQ.
Qed.

Lemma sorted_NoDup {A : Type} (leb : A -> A -> bool) (l : list A) :
  NoDup l -> NoDup (sorted leb l).
Proof. apply Permutation_NoDup, sorted_perm. Qed.

(** X3.  The options of the three multiselects are exactly the values that
    occur in the table, each listed once; the years are in ascending order.
    After filtering, every year, region and product still on offer is one of
    those selected. *)
Theorem disponiveis_exact (df : DataFrame) (sel : FilterSelection) :
  (forall a, In a (anos_disponiveis df) <-> exists r, In r df /\ ano r = a)
  /\ (forall k, In k (regioes_disponiveis df) <->
                exists r, In r df /\ regiao r = k)
  /\ (forall p, In p (produtos_disponiveis df) <->
                exists r, In r df /\ produto r = p)
  /\ NoDup (anos_disponiveis df)
  /\ NoDup (regioes_disponiveis df)
  /\ NoDup (produtos_disponiveis df)
  /\ StronglySorted Z.le (anos_disponiveis df)
  /\ incl (anos_disponiveis (df_filtrado df sel)) (anos_selecionados sel)
  /\ incl (regioes_disponiveis (df_filtrado df sel)) (regioes_selecionadas sel)
  /\ incl (produtos_disponiveis (df_filtrado df sel))
          (produtos_selecionados sel).
Proof.
  unfold anos_disponiveis, regioes_disponiveis, produtos_disponiveis.
  assert (Hin : forall (A : Type) (eqb leb : A -> A -> bool) (c : Row -> A)
                  (t : DataFrame) (x : A),
             (forall u v, eqb u v = true <-> u = v) ->
             (In x (sorted leb (unique eqb (col c t))) <->
              exists r, In r t /\ c r = x)).
  { intros A eqb leb c t x Hspec.
    rewrite In_sorted, (In_unique eqb Hspec). unfold col.
    rewrite in_map_iff. split; intros [r [H1 H2]]; exists r; tauto. }
  repeat split.
  - apply Hin, Zeqb_spec'.
  - apply Hin, Zeqb_spec'.
  - apply Hin, Seqb_spec'.
  - apply Hin, Seqb_spec'.
  - apply Hin, Seqb_spec'.
  - apply Hin, Seqb_spec'.
  - apply sorted_NoDup, NoDup_unique, Zeqb_spec'.
  - apply sorted_NoDup, NoDup_unique, Seqb_spec'.
  - apply sorted_NoDup, NoDup_unique, Seqb_spec'.
  - eapply StronglySorted_weaken;
      [|apply (sorted_sorted Z.leb Zleb_total Zleb_trans)].
    intros a b H. apply Z.leb_le. exact H.
  - intros a Ha. apply (Hin Z Z.eqb Z.leb ano _ a Zeqb_spec') in Ha.
    destruct Ha as [r [Hr Ea]]. subst a.
    rewrite df_filtrado_filter, filter_In, selecionada_iff in Hr.
    apply Hr.
  - intros a Ha. apply (Hin _ String.eqb String.leb regiao _ a Seqb_spec') in Ha.
    destruct Ha as [r [Hr Ea]]. subst a.
    rewrite df_filtrado_filter, filter_In, selecionada_iff in Hr.
    apply Hr.
  - intros a Ha. apply (Hin _ String.eqb String.leb produto _ a Seqb_spec') in Ha.
    destruct Ha as [r [Hr Ea]]. subst a.
    rewrite df_filtrado_filter, filter_In, selecionada_iff in Hr.
    apply Hr.
Qed.

Lemma selecionada_empty (sel : FilterSelection) (r : Row) :
  anos_selecionados sel = []
  \/ regioes_selecionadas sel = []
  \/ produtos_selecionados sel = [] ->
  selecionada sel r = false.
Proof.
  unfold selecionada. intros [H|[H|H]]; rewrite H; simpl.
  - reflexivity.
  - rewrite andb_false_r. reflexivity.
  - apply andb_false_r.
Qed.

Lemma df_filtrado_nil (df : DataFrame) (sel : FilterSelection) :
  anos_selecionados sel = []
  \/ regioes_selecionadas sel = []
  \/ produtos_selecionados sel = [] ->
  df_filtrado df sel = [].
Proof.
  intros H. rewrite df_filtrado_filter.
  apply filter_all_false. intros r _. apply selecionada_empty. exact H.
Qed.

(** X1.  With an empty selection on any dimension the aggregator still
    returns: the total revenue, the two yearly totals and the volume are
    zero, and the growth, the mean margin and the mean ticket are NaN. *)
Theorem metricas_empty_selection (df : DataFrame) (sel : FilterSelection) :
  anos_selecionados sel = []
  \/ regioes_selecionadas sel = []
  \/ produtos_selecionados sel = [] ->
  calcular_metricas_principais (df_filtrado df sel) = metricas_vazias.
Proof.
  intros H. rewrite (df_filtrado_nil df sel H). reflexivity.
Qed.

Lemma metricas_empty_selection_witness :
  calcular_metricas_principais
    (df_filtrado tabela_cenario (mkSelection [2023; 2024]%Z [] ["Mouse"]))
  = metricas_vazias.
Proof.
  apply (metricas_empty_selection tabela_cenario).
  right. left. reflexivity.
Defined.

(** ** The loader and the script on the three kinds of source *)

Lemma add_features_base (rows : list RawRow) :
  map base (add_features rows) = rows.
Proof.
  unfold add_features. rewrite map_map. simpl. apply map_id.
Qed.

(** X4.  Only a missing file is handled.  The loader returns [None] exactly
    when the file is absent, and that is the only case in which it shows an
    error message.  It raises, with no message, exactly when the read fails
    otherwise or the file is read but one of its date cells is not a date.
    On a file that is read and whose date cells are all empty or dates it
    returns the lines of the file, all of them, in order and unchanged but
    for the parsed date, with the derived columns beside them.  When the
    loader raises the script stops after the navigation sidebar, with no
    message, no filter, no page and no footer. *)
Theorem carregar_dados_outcomes (src : CsvSource) (ui : UserInput) :
  (fst (carregar_dados src []) = Returned None <-> src = Absent)
  /\ (snd (carregar_dados src []) <> [] <-> src = Absent)
  /\ (fst (carregar_dados src []) = Raised OtherError <->
        src = Unreadable
        \/ exists linhas, src = Present linhas
                          /\ forallb legivel linhas = false)
  /\ (forall linhas,
        forallb legivel linhas = true ->
        carregar_dados (Present linhas) [] =
          (Returned (Some (add_features (map linha_lida linhas))), [])
        /\ map base (add_features (map linha_lida linhas)) =
             map linha_lida linhas
        /\ List.length (add_features (map linha_lida linhas)) =
             List.length linhas)
  /\ (fst (carregar_dados src []) = Raised OtherError ->
        script src ui [] =
          (Raised OtherError,
           [SetPageConfig; MarkdownCss; SidebarImage; SidebarTitle;
            SidebarRule; SidebarSelectbox (pagina ui); SidebarRule])).
Proof.
  assert (Hraise : fst (carregar_dados src []) = Raised OtherError <->
                   src = Unreadable
                   \/ exists linhas, src = Present linhas
                                     /\ forallb legivel linhas = false).
  { destruct src as [| |linhas].
    - split; [discriminate|].
      intros [H|[l [H _]]]; discriminate H.
    - split; [left; reflexivity|reflexivity].
    - destruct (forallb legivel linhas) eqn:E.
      + rewrite (carregar_dados_legivel linhas E). split; [discriminate|].
        intros [H|[l [H H']]]; [discriminate H|].
        injection H as <-. rewrite E in H'. discriminate H'.
      + rewrite (carregar_dados_ilegivel linhas E).
        split; [|reflexivity].
        intros _. right. exists linhas. split; [reflexivity|exact E]. }
  split; [|split; [|split; [exact Hraise|split]]].
  - destruct src as [| |linhas]; split; intros H;
      try reflexivity; try discriminate H.
    destruct (forallb legivel linhas) eqn:E.
    + rewrite (carregar_dados_legivel linhas E) in H. discriminate H.
    + rewrite (carregar_dados_ilegivel linhas E) in H. discriminate H.
  - destruct src as [| |linhas]; split; intros H;
      try reflexivity; try discriminate H; try discriminate;
      try (exfalso; apply H; reflexivity).
    exfalso. apply H. destruct (forallb legivel linhas) eqn:E.
    + rewrite (carregar_dados_legivel linhas E). reflexivity.
    + rewrite (carregar_dados_ilegivel linhas E). reflexivity.
  - intros linhas H. split; [exact (carregar_dados_legivel linhas H)|].
    split; [apply add_features_base|].
    unfold add_features. rewrite !length_map. reflexivity.
  - intros H. apply Hraise in H. destruct H as [->|[linhas [-> H]]].
    + reflexivity.
    + exact (script_ilegivel linhas ui H).
Qed.

(** A file of two lines, one with an empty date, is loaded whole; a third
    line whose date is no date makes the loader and the script raise. *)
Lemma carregar_dados_outcomes_witness :
  let lidas := [linha (DataLida (mkTimestamp 2023 5 1)) 2023 (of_Z 100);
                linha DataVazia 2024 (of_Z 150)] in
  let ruim := (lidas ++ [linha DataIlegivel 2024 (of_Z 1)])%list in
  let ui := mkInput VisaoGeral (fun o => o) (fun o => o) (fun o => o) in
  (carregar_dados (Present lidas) [] =
     (Returned (Some (add_features (map linha_lida lidas))), [])
   /\ map base (add_features (map linha_lida lidas)) = map linha_lida lidas
   /\ List.length (add_features (map linha_lida lidas)) = 2%nat)
  /\ fst (carregar_dados (Present ruim) []) = Raised OtherError
  /\ script (Present ruim) ui [] =
       (Raised OtherError,
        [SetPageConfig; MarkdownCss; SidebarImage; SidebarTitle;
         SidebarRule; SidebarSelectbox VisaoGeral; SidebarRule]).
Proof.
  intros lidas ruim ui.
  split; [|split].
  - apply (proj1 (proj2 (proj2 (proj2
             (carregar_dados_outcomes Absent ui)))) lidas).
    reflexivity.
  - apply (proj2 (proj1 (proj2 (proj2
             (carregar_dados_outcomes (Present ruim) ui))))).
    right. exists ruim. split; reflexivity.
  - apply (proj2 (proj2 (proj2 (proj2
             (carregar_dados_outcomes (Present ruim) ui))))).
    reflexivity.
Defined.

(** ** The evaluation page *)

Lemma df_filtrado_default (df : DataFrame) :
  df_filtrado df (default_selection df) = df.
Proof.
  change (default_selection df) with (so_regioes df (regioes_disponiveis df)).
  rewrite df_filtrado_so_regioes.
  apply filter_all_true. intros r Hr.
  apply (isin_disponiveis String.eqb Seqb_spec' String.leb).
  apply (in_map regiao). exact Hr.
Qed.

(** X5.  The KPIs of the evaluation page are computed on the loaded table,
    not on the filtered one: the realised growth and margin are the
    aggregator's values on the whole table, so they are the numbers of the
    overview when the filters are at their default, whatever is selected
    otherwise. *)
Theorem kpis_avaliacao_whole_table (df : DataFrame) :
  let todos := calcular_metricas_principais df in
  let visao := calcular_metricas_principais
                 (df_filtrado df (default_selection df)) in
  map kpi_realizado (kpis_avaliacao df) =
    [Metricas.crescimento_yoy todos; Metricas.margem_media todos;
     nanmean (col roi df)]
  /\ map kpi_realizado (kpis_avaliacao df) =
       [Metricas.crescimento_yoy visao; Metricas.margem_media visao;
        nanmean (col roi df)]
  /\ map kpi_meta (kpis_avaliacao df) = [15; 35; 25]%Z.
Proof.
  intros todos visao. subst todos visao.
  rewrite df_filtrado_default.
  repeat split.
Qed.

Lemma score_cases (b1 b2 b3 : bool) (k1 k2 k3 : Kpi) :
  atingido k1 = b1 -> atingido k2 = b2 -> atingido k3 = b3 ->
  List.length (filter atingido [k1; k2; k3]) =
  ((if b1 then 1 else 0) + (if b2 then 1 else 0) + (if b3 then 1 else 0))%nat.
Proof.
  intros H1 H2 H3. simpl. rewrite H1, H2, H3.
  destruct b1, b2, b3; reflexivity.
Qed.

(** X6.  The score counts the KPIs attained, between 0 and 3, and the value
    handed to the progress bar is a float between 0.0 and 1.0, which the
    widget accepts, on every table. *)
Theorem progresso_in_range (df : DataFrame) :
  (0 <= score_total df <= 3)%Z
  /\ SFleb zero (progresso df) = true
  /\ SFleb (progresso df) (of_Z 1) = true
  /\ (score_total df = 3%Z <->
      Forall (fun k => atingido k = true) (kpis_avaliacao df)).
Proof.
  unfold progresso, percentual_atingimento, score_total.
  unfold kpis_avaliacao.
  set (k1 := {| kpi_nome := "Crescimento de Receita" |}).
  set (k2 := {| kpi_nome := "Margem de Lucro" |}).
  set (k3 := {| kpi_nome := "ROI Médio dos Produtos" |}).
  rewrite (score_cases (atingido k1) (atingido k2) (atingido k3) k1 k2 k3)
    by reflexivity.
  destruct (atingido k1) eqn:E1, (atingido k2) eqn:E2, (atingido k3) eqn:E3;
    (split; [simpl; lia|]);
    (split; [vm_compute; reflexivity|]);
    (split; [vm_compute; reflexivity|]).
  all: try (split; [intros _; repeat constructor; assumption
                   |intros _; reflexivity]).
  all: split; [intros H; simpl in H; discriminate H|].
  all: intros H; exfalso;
       repeat match goal with
              | Hf : Forall _ (_ :: _) |- _ => inversion Hf; clear Hf; subst
              end; congruence.
Qed.

(** X7.  A KPI whose realised value is NaN is never counted as attained,
    and the growth KPI is counted as attained when the 2023 revenue is zero
    and the 2024 revenue is positive: the realised growth is then plus
    infinity. *)
Theorem atingido_edge_cases (df : DataFrame) :
  (forall k, In k (kpis_avaliacao df) ->
             isnan (kpi_realizado k) = true -> atingido k = false)
  /\ (faturamento_ano df 2023 = zero ->
      SFltb zero (faturamento_ano df 2024) = true ->
      exists k, hd_error (kpis_avaliacao df) = Some k
                /\ kpi_realizado k = pinf
                /\ atingido k = true).
Proof.
  split.
  - intros k Hk Hnan. unfold atingido, float_ge.
    destruct (kpi_realizado k); try discriminate Hnan.
    destruct Hk as [Hk|[Hk|[Hk|[]]]]; subst k; reflexivity.
  - intros H23 H24.
    assert (Hg : crescimento (faturamento_ano df 2024)
                             (faturamento_ano df 2023) = pinf).
    { rewrite H23, crescimento_zero_anterior by reflexivity.
      destruct (faturamento_ano df 2024) as [s|s| |s m e];
        try discriminate H24; destruct s; try discriminate H24;
        reflexivity. }
    unfold crescimento in Hg.
    unfold kpis_avaliacao. eexists. split; [reflexivity|].
    unfold atingido, float_ge. cbn [kpi_realizado kpi_meta].
    rewrite Hg. split; reflexivity.
Qed.

Lemma atingido_edge_cases_witness :
  Forall (fun k => atingido k = false) (kpis_avaliacao [])
  /\ exists k, hd_error (kpis_avaliacao tabela_so_2024) = Some k
               /\ kpi_realizado k = pinf
               /\ atingido k = true.
Proof.
  split.
  - apply Forall_forall. intros k Hk.
    apply (proj1 (atingido_edge_cases []) k Hk).
    destruct Hk as [Hk|[Hk|[Hk|[]]]]; subst k; reflexivity.
  - apply (proj2 (atingido_edge_cases tabela_so_2024)); reflexivity.
Defined.

(** ** Regional growth *)

Lemma find_keyed {V : Type} (F : string -> V) (keys : list string) (k : string) :
  find (fun p => String.eqb (fst p) k) (map (fun k' => (k', F k')) keys) =
  if existsb (String.eqb k) keys then Some (k, F k) else None.
Proof.
  induction keys as [|k' keys IH]; simpl; [reflexivity|].
  rewrite (String.eqb_sym k k').
  destruct (String.eqb k' k) eqn:E; simpl.
  - apply String.eqb_eq in E. subst k'. reflexivity.
  - exact IH.
Qed.

Lemma existsb_filter {R : Type} (f g : R -> bool) (l : list R) :
  existsb f (filter g l) = existsb (fun x => g x && f x) l.
Proof.
  induction l as [|x l IH]; simpl; [reflexivity|].
  destruct (g x); simpl; rewrite IH; reflexivity.
Qed.

Lemma existsb_key_col (key : Row -> string) (t : DataFrame) (k : string) :
  existsb (String.eqb k) (sorted String.leb (unique String.eqb (col key t))) =
  existsb (fun r => String.eqb (key r) k) t.
Proof.
  apply eq_true_iff_eq.
  rewrite (existsb_eqb_In String.eqb Seqb_spec'), In_sorted,
          (In_unique String.eqb Seqb_spec'), existsb_exists.
  unfold col. rewrite in_map_iff.
  split; intros [r [H1 H2]]; exists r.
  - split; [exact H2|]. apply String.eqb_eq. exact H1.
  - split; [|exact H1]. apply String.eqb_eq. exact H2.
Qed.

Lemma faturamento_por_regiao_keyed (t : DataFrame) :
  faturamento_por_regiao t =
  map (fun k => (k, group_sum (col faturamento
                              (filter (fun r => String.eqb (regiao r) k) t))))
      (sorted String.leb (unique String.eqb (col regiao t))).
Proof.
  unfold faturamento_por_regiao, groupby. rewrite map_map. reflexivity.
Qed.

Lemma loc_nan_faturamento_por_regiao (t : DataFrame) (k : string) :
  loc_nan (faturamento_por_regiao t) k =
  if existsb (fun r => String.eqb (regiao r) k) t
  then group_sum (col faturamento (filter (fun r => String.eqb (regiao r) k) t))
  else nan.
Proof.
  unfold loc_nan. rewrite faturamento_por_regiao_keyed, find_keyed.
  rewrite existsb_key_col.
  destruct (existsb (fun r => String.eqb (regiao r) k) t); reflexivity.
Qed.

Lemma loc_nan_ano (df : DataFrame) (y : Z) (k : string) :
  loc_nan (faturamento_por_regiao
             (getitem_mask df (eq_scalar Z.eqb (col ano df) y))) k =
  if tem_regiao_ano df k y then receita_regiao_ano df k y else nan.
Proof.
  rewrite eq_scalar_col, getitem_mask_map, loc_nan_faturamento_por_regiao.
  rewrite existsb_filter.
  unfold tem_regiao_ano, receita_regiao_ano.
  replace (existsb (fun x => (ano x =? y)%Z && String.eqb (regiao x) k) df)
    with (existsb (fun r => String.eqb (regiao r) k && (ano r =? y)%Z) df).
  - reflexivity.
  - clear. induction df as [|r df IH]; simpl; [reflexivity|].
    rewrite IH, (andb_comm (String.eqb (regiao r) k)). reflexivity.
Qed.

Lemma binop_alinhado_keys (op : float64 -> float64 -> float64)
    (a b : SerieRegiao) :
  map fst (binop_alinhado op a b) =
  sorted String.leb (unique String.eqb (map fst a ++ map fst b)%list).
Proof.
  unfold binop_alinhado. rewrite map_map. simpl. apply map_id.
Qed.

Lemma loc_nan_binop_alinhado (op : float64 -> float64 -> float64)
    (a b : SerieRegiao) (k : string) :
  In k (map fst a) \/ In k (map fst b) ->
  loc_nan (binop_alinhado op a b) k = op (loc_nan a k) (loc_nan b k).
Proof.
  intros H. unfold loc_nan at 1. unfold binop_alinhado.
  rewrite find_keyed.
  assert (E : existsb (String.eqb k)
                (sorted String.leb
                   (unique String.eqb (map fst a ++ map fst b)%list)) = true).
  { apply (existsb_eqb_In String.eqb Seqb_spec'), In_sorted,
          (In_unique String.eqb Seqb_spec'), in_or_app. exact H. }
  rewrite E. reflexivity.
Qed.

Lemma faturamento_por_regiao_keys (t : DataFrame) (k : string) :
  In k (map fst (faturamento_por_regiao t)) <->
  existsb (fun r => String.eqb (regiao r) k) t = true.
Proof.
  rewrite faturamento_por_regiao_keyed, map_map. simpl. rewrite map_id.
  rewrite <- existsb_key_col, (existsb_eqb_In String.eqb Seqb_spec').
  reflexivity.
Qed.

Lemma regiao_ano_keys (df : DataFrame) (y : Z) (k : string) :
  In k (map fst (faturamento_por_regiao
                   (getitem_mask df (eq_scalar Z.eqb (col ano df) y)))) <->
  tem_regiao_ano df k y = true.
Proof.
  rewrite faturamento_por_regiao_keys, eq_scalar_col, getitem_mask_map,
          existsb_filter.
  unfold tem_regiao_ano. rewrite !existsb_exists.
  split; intros [r [H1 H2]]; exists r; (split; [exact H1|]);
    rewrite andb_comm; exact H2.
Qed.

Lemma crescimento_nan_l (b : float64) : crescimento nan b = nan.
Proof. reflexivity. Qed.

Lemma crescimento_nan_r (a : float64) : crescimento a nan = nan.
Proof. unfold crescimento. destruct a; reflexivity. Qed.

(** The index of [crescimento_regional] and the growth it holds for a
    region of that index. *)
Lemma crescimento_regional_keyed (df : DataFrame) :
  let df_2023 := faturamento_por_regiao
                   (getitem_mask df (eq_scalar Z.eqb (col ano df) 2023)) in
  let df_2024 := faturamento_por_regiao
                   (getitem_mask df (eq_scalar Z.eqb (col ano df) 2024)) in
  let idx :=
    sorted String.leb
      (unique String.eqb
         (map fst (binop_alinhado sub df_2024 df_2023) ++ map fst df_2023)%list) in
  crescimento_regional df =
  map (fun k =>
         (k,
          if tem_regiao_ano df k 2023 && tem_regiao_ano df k 2024 then
            let g := crescimento (receita_regiao_ano df k 2024)
                                 (receita_regiao_ano df k 2023) in
            if isnan g then zero else g
          else zero))
      idx
  /\ forall k, In k idx <->
               tem_regiao_ano df k 2023 = true \/ tem_regiao_ano df k 2024 = true.
Proof.
  intros df_2023 df_2024 idx.
  assert (Hidx : forall k, In k idx <->
             tem_regiao_ano df k 2023 = true \/ tem_regiao_ano df k 2024 = true).
  { intros k. unfold idx.
    rewrite In_sorted, (In_unique String.eqb Seqb_spec'), in_app_iff.
    rewrite binop_alinhado_keys, In_sorted, (In_unique String.eqb Seqb_spec'),
            in_app_iff.
    unfold df_2023, df_2024. rewrite !regiao_ano_keys. tauto. }
  split; [|exact Hidx].
  unfold crescimento_regional. fold df_2023. fold df_2024.
  unfold fillna, vezes. unfold binop_alinhado at 1. fold idx.
  rewrite !map_map. cbn [fst snd].
  apply map_ext_in. intros k Hk. f_equal.
  apply Hidx in Hk.
  rewrite loc_nan_binop_alinhado.
  2:{ unfold df_2023, df_2024. rewrite !regiao_ano_keys. tauto. }
  unfold df_2023, df_2024. rewrite !loc_nan_ano.
  match goal with
  | |- context [mul (div (sub ?a ?b) ?b) (of_Z 100)] =>
      change (mul (div (sub a b) b) (of_Z 100)) with (crescimento a b)
  end.
  destruct (tem_regiao_ano df k 2023), (tem_regiao_ano df k 2024);
    cbn [andb]; rewrite ?crescimento_nan_r, ?crescimento_nan_l; reflexivity.
Qed.

Lemma tem_regiao_ano_iff (df : DataFrame) (k : string) (y : Z) :
  tem_regiao_ano df k y = true <->
  exists r, In r df /\ regiao r = k /\ ano r = y.
Proof.
  unfold tem_regiao_ano. rewrite existsb_exists.
  split; intros [r [Hr H]]; exists r; (split; [exact Hr|]).
  - apply andb_true_iff in H. destruct H as [H1 H2].
    split; [apply String.eqb_eq; exact H1|apply Z.eqb_eq; exact H2].
  - destruct H as [H1 H2]. apply andb_true_iff.
    split; [apply String.eqb_eq; exact H1|apply Z.eqb_eq; exact H2].
Qed.

(** X8.  The regional growth has one entry per region that has a row of
    2023 or of 2024 in the filtered table, each region once, and none of its
    entries is NaN. *)
Theorem crescimento_regional_index (df : DataFrame) :
  (forall k, In k (map fst (crescimento_regional df)) <->
             exists r, In r df /\ regiao r = k
                       /\ (ano r = 2023%Z \/ ano r = 2024%Z))
  /\ NoDup (map fst (crescimento_regional df))
  /\ Forall (fun p => isnan (snd p) = false) (crescimento_regional df).
Proof.
  destruct (crescimento_regional_keyed df) as [E Hidx].
  rewrite E. rewrite map_map. cbn [fst]. rewrite map_id.
  split; [|split].
  - intros k. rewrite Hidx, !tem_regiao_ano_iff.
    split.
    + intros [[r H]|[r H]]; exists r; tauto.
    + intros [r [H1 [H2 [H3|H3]]]]; [left|right]; exists r; tauto.
  - apply sorted_NoDup, NoDup_unique, Seqb_spec'.
  - apply Forall_forall. intros p Hp.
    apply in_map_iff in Hp. destruct Hp as [k [Hp _]]. subst p. cbn [snd].
    destruct (tem_regiao_ano df k 2023 && tem_regiao_ano df k 2024);
      [|reflexivity].
    cbv zeta.
    destruct (isnan (crescimento (receita_regiao_ano df k 2024)
                                 (receita_regiao_ano df k 2023))) eqn:En;
      [reflexivity|exact En].
Qed.

(** X9.  The entry of a region is the growth of its own 2024 revenue over
    its own 2023 revenue when it has rows of both years (0.0 if that growth
    is NaN), and 0.0 when it has rows of only one of the two years: a region
    that sold in 2023 and not in 2024 shows 0.0, not -100. *)
Theorem crescimento_regional_values (df : DataFrame) :
  crescimento_regional df =
  map (fun k =>
         (k,
          if tem_regiao_ano df k 2023 && tem_regiao_ano df k 2024 then
            let g := crescimento (receita_regiao_ano df k 2024)
                                 (receita_regiao_ano df k 2023) in
            if isnan g then zero else g
          else zero))
      (map fst (crescimento_regional df)).
Proof.
  destruct (crescimento_regional_keyed df) as [E _].
  match type of E with
  | _ = map _ ?i =>
      assert (K : map fst (crescimento_regional df) = i)
        by (rewrite E, map_map; cbn [fst]; apply map_id)
  end.
  rewrite K. exact E.
Qed.

(** ** Loops and lookups inside the pages *)

Lemma iloc_0 {A : Type} (x : A) (l : list A) : iloc (x :: l) 0 = Res.Val x.
Proof.
  unfold iloc. cbn [List.length].
  replace ((0 <=? 0) && (0 <? Z.of_nat (S (List.length l))))%Z with true.
  - reflexivity.
  - symmetry. apply andb_true_iff. split; [reflexivity|].
    apply Z.ltb_lt. lia.
Qed.

Lemma iloc_nil {A : Type} (i : Z) : iloc (@nil A) i = Res.Err IndexError.
Proof.
  unfold iloc.
  match goal with |- (if ?c then _ else _) = _ => destruct c end;
    [|reflexivity].
  rewrite nth_error_nil. reflexivity.
Qed.

Lemma iloc_last {A : Type} (l : list A) (a : A) :
  iloc (l ++ [a])%list (-1) = Res.Val a.
Proof.
  unfold iloc. rewrite length_app. cbn [List.length].
  replace (Z.of_nat (List.length l + 1) + -1)%Z with (Z.of_nat (List.length l))
    by lia.
  cbn [Z.ltb Z.compare].
  replace ((0 <=? Z.of_nat (List.length l))
           && (Z.of_nat (List.length l) <? Z.of_nat (List.length l + 1)))%Z
    with true.
  - rewrite Nat2Z.id, nth_error_app2, Nat.sub_diag by lia. reflexivity.
  - symmetry. apply andb_true_iff. split; [apply Z.leb_le|apply Z.ltb_lt]; lia.
Qed.

Lemma mapM_Val {A B : Type} (f : A -> Res.t B) (g : A -> B) (l : list A) :
  (forall x, In x l -> f x = Res.Val (g x)) ->
  Res.mapM f l = Res.Val (map g l).
Proof.
  induction l as [|x l IH]; simpl; intros H; [reflexivity|].
  rewrite (H x (or_introl eq_refl)). simpl.
  rewrite IH by (intros y Hy; apply H; right; exact Hy). reflexivity.
Qed.

(** X10.  The loop that colours the product matrix never raises: every
    product of the grouped index has a row in the filtered table, so the
    lookup of the category of its first row succeeds, and there is one
    colour per product on offer, by that category. *)
Theorem cores_dos_produtos_never_raises (df : DataFrame) :
  cores_dos_produtos df =
    Res.Val
      (map (fun p =>
              (p, if String.eqb (primeira_categoria df p) "Eletrônicos"
                  then CORES_principal else CORES_secundaria))
           (produtos_disponiveis df))
  /\ Forall (fun p =>
               exists r, hd_error (filter (fun r => String.eqb (produto r) p) df)
                         = Some r
                         /\ primeira_categoria df p = categoria r)
            (produtos_disponiveis df).
Proof.
  assert (Hne : forall p, In p (produtos_disponiveis df) ->
            exists r l, filter (fun r => String.eqb (produto r) p) df = r :: l).
  { intros p Hp. unfold produtos_disponiveis in Hp.
    apply In_sorted, (In_unique String.eqb Seqb_spec'), in_map_iff in Hp.
    destruct Hp as [r [Hp Hr]].
    destruct (filter (fun r0 => String.eqb (produto r0) p) df) as [|r' l] eqn:E.
    - assert (Hin : In r (filter (fun r0 => String.eqb (produto r0) p) df)).
      { apply filter_In. split; [exact Hr|]. apply String.eqb_eq. exact Hp. }
      rewrite E in Hin. destruct Hin.
    - exists r', l. reflexivity. }
  split.
  - unfold cores_dos_produtos. rewrite groupby_keys.
    apply mapM_Val. intros p Hp.
    destruct (Hne p Hp) as [r [l E]].
    unfold cor_do_produto, primeira_categoria.
    rewrite eq_scalar_col, getitem_mask_map, E.
    unfold col. cbn [map]. rewrite iloc_0. reflexivity.
  - apply Forall_forall. intros p Hp.
    destruct (Hne p Hp) as [r [l E]].
    exists r. unfold primeira_categoria. rewrite E. split; reflexivity.
Qed.

(** ** Dates *)

Lemma ts_eqb_spec (a b : Timestamp) : ts_eqb a b = true <-> a = b.
Proof.
  destruct a as [ya ma da], b as [yb mb db]. unfold ts_eqb. simpl.
  rewrite !andb_true_iff, !Z.eqb_eq. split.
  - intros [[H1 H2] H3]. subst. reflexivity.
  - intros H. inversion H. auto.
Qed.

Lemma ts_leb_total (a b : Timestamp) :
  ts_leb a b = true \/ ts_leb b a = true.
Proof.
  unfold ts_leb.
  destruct (Z.compare_spec (year a) (year b)) as [Ey|Ey|Ey];
  destruct (Z.compare_spec (year b) (year a)) as [Ey'|Ey'|Ey']; try lia.
  destruct (Z.compare_spec (month a) (month b)) as [Em|Em|Em];
  destruct (Z.compare_spec (month b) (month a)) as [Em'|Em'|Em']; lia.
Qed.

Lemma ts_leb_trans (a b c : Timestamp) :
  ts_leb a b = true -> ts_leb b c = true -> ts_leb a c = true.
Proof.
  unfold ts_leb.
  destruct (Z.compare_spec (year a) (year b)) as [Eab|Eab|Eab];
  destruct (Z.compare_spec (year b) (year c)) as [Ebc|Ebc|Ebc];
  destruct (Z.compare_spec (year a) (year c)) as [Eac|Eac|Eac];
    try lia; try discriminate.
  destruct (Z.compare_spec (month a) (month b)) as [Mab|Mab|Mab];
  destruct (Z.compare_spec (month b) (month c)) as [Mbc|Mbc|Mbc];
  destruct (Z.compare_spec (month a) (month c)) as [Mac|Mac|Mac];
    try lia; try discriminate.
Qed.

Lemma ts_leb_refl (a : Timestamp) : ts_leb a a = true.
Proof. destruct (ts_leb_total a a); assumption. Qed.

Lemma StronglySorted_last {A : Type} (R : A -> A -> Prop) (l : list A) (a : A) :
  StronglySorted R (l ++ [a])%list -> Forall (fun x => R x a) l.
Proof.
  induction l as [|x l IH]; simpl; intros H; [constructor|].
  inversion H as [|? ? Hs Hx]; subst.
  constructor; [|apply IH; exact Hs].
  rewrite Forall_forall in Hx. apply Hx. apply in_or_app. right. left. reflexivity.
Qed.

Lemma datas_ordenadas_In (df : DataFrame) (t : Timestamp) :
  In t (datas_ordenadas df) <-> In t (datas_validas df).
Proof.
  unfold datas_ordenadas. rewrite In_sorted. apply In_unique, ts_eqb_spec.
Qed.

Lemma datas_ordenadas_nil (df : DataFrame) :
  datas_ordenadas df = [] <-> datas_validas df = [].
Proof.
  split; intros H.
  - destruct (datas_validas df) as [|t l] eqn:E; [reflexivity|].
    assert (Hin : In t (datas_ordenadas df))
      by (apply datas_ordenadas_In; rewrite E; left; reflexivity).
    rewrite H in Hin. destruct Hin.
  - unfold datas_ordenadas. rewrite H. reflexivity.
Qed.

Lemma vendas_mensais_faturamento (df : DataFrame) :
  col vm_faturamento (vendas_mensais df) =
  map (receita_na_data df) (datas_ordenadas df).
Proof.
  unfold col, vendas_mensais, datas_ordenadas. rewrite map_map. reflexivity.
Qed.

(** The first and the last line of [vendas_mensais] are those of the
    earliest and of the latest date of the table. *)
Lemma datas_ordenadas_ends (df : DataFrame) :
  datas_validas df <> [] ->
  exists t0 t1 meio fim,
    datas_ordenadas df = t0 :: meio
    /\ datas_ordenadas df = (fim ++ [t1])%list
    /\ In t0 (datas_validas df) /\ In t1 (datas_validas df)
    /\ forall t, In t (datas_validas df) ->
                 ts_leb t0 t = true /\ ts_leb t t1 = true.
Proof.
  intros Hne.
  assert (Hs := sorted_sorted ts_leb ts_leb_total ts_leb_trans
                  (unique ts_eqb (datas_validas df))).
  fold (datas_ordenadas df) in Hs.
  assert (Hne' : datas_ordenadas df <> [])
    by (intros E; apply Hne, datas_ordenadas_nil; exact E).
  destruct (datas_ordenadas df) as [|t0 meio] eqn:E0; [contradiction|].
  destruct (exists_last Hne') as [fim [t1 E1]].
  exists t0, t1, meio, fim.
  split; [reflexivity|]. split; [exact E1|].
  assert (H0 : In t0 (datas_validas df))
    by (apply datas_ordenadas_In; rewrite E0; left; reflexivity).
  assert (H1 : In t1 (datas_validas df))
    by (apply datas_ordenadas_In; rewrite E0, E1; apply in_or_app; right;
        left; reflexivity).
  split; [exact H0|]. split; [exact H1|].
  intros t Ht. apply datas_ordenadas_In in Ht. split.
  - rewrite E0 in Ht. inversion Hs as [|? ? _ Hall]; subst.
    destruct Ht as [Ht|Ht]; [subst t; apply ts_leb_refl|].
    rewrite Forall_forall in Hall. apply Hall. exact Ht.
  - rewrite E0, E1 in Ht. rewrite E1 in Hs.
    apply StronglySorted_last in Hs. rewrite Forall_forall in Hs.
    apply in_app_or in Ht. destruct Ht as [Ht|[Ht|[]]].
    + apply Hs. exact Ht.
    + subst t. apply ts_leb_refl.
Qed.

(** X11.  The total growth of the temporal analysis raises [IndexError]
    exactly when no row of the filtered table has a date, in particular on
    an empty table. *)
Theorem crescimento_total_raises (df : DataFrame) :
  crescimento_total (vendas_mensais df) = Res.Err IndexError
  <-> datas_validas df = [].
Proof.
  unfold crescimento_total. rewrite vendas_mensais_faturamento.
  split.
  - intros H.
    destruct (datas_validas df) as [|t l] eqn:E; [reflexivity|].
    exfalso.
    assert (Hne : datas_validas df <> []) by (rewrite E; discriminate).
    destruct (datas_ordenadas_ends df Hne) as (t0 & t1 & meio & fim & E0 & E1 & _).
    rewrite E1 in H at 1. rewrite map_app in H. cbn [map] in H.
    rewrite iloc_last in H. cbn [Res.bind] in H.
    rewrite E0 in H. cbn [map] in H. rewrite iloc_0 in H.
    discriminate H.
  - intros H. apply datas_ordenadas_nil in H. rewrite H. reflexivity.
Qed.

(** X12.  When some row has a date, the total growth is the revenue of the
    latest date over the revenue of the earliest date, minus one, times 100:
    it compares single dates, whatever lies between them. *)
Theorem crescimento_total_ends (df : DataFrame) :
  datas_validas df <> [] ->
  exists t0 t1,
    In t0 (datas_validas df) /\ In t1 (datas_validas df)
    /\ (forall t, In t (datas_validas df) ->
                  ts_leb t0 t = true /\ ts_leb t t1 = true)
    /\ crescimento_total (vendas_mensais df) =
         Res.Val (mul (sub (div (receita_na_data df t1)
                                (receita_na_data df t0))
                           (of_Z 1))
                      (of_Z 100)).
Proof.
  intros Hne.
  destruct (datas_ordenadas_ends df Hne)
    as (t0 & t1 & meio & fim & E0 & E1 & H0 & H1 & Hb).
  exists t0, t1. repeat (split; [assumption|]).
  unfold crescimento_total. rewrite vendas_mensais_faturamento.
  rewrite E1 at 1. rewrite map_app. cbn [map].
  rewrite iloc_last. cbn [Res.bind].
  rewrite E0. cbn [map]. rewrite iloc_0. reflexivity.
Qed.

Lemma crescimento_total_ends_witness :
  exists t0 t1,
    In t0 (datas_validas tabela_cenario) /\ In t1 (datas_validas tabela_cenario)
    /\ (forall t, In t (datas_validas tabela_cenario) ->
                  ts_leb t0 t = true /\ ts_leb t t1 = true)
    /\ crescimento_total (vendas_mensais tabela_cenario) =
         Res.Val (mul (sub (div (receita_na_data tabela_cenario t1)
                                (receita_na_data tabela_cenario t0))
                           (of_Z 1))
                      (of_Z 100)).
Proof.
  apply (crescimento_total_ends tabela_cenario). discriminate.
Defined.

Section FoldMinMax.

Context {A : Type} (leb : A -> A -> bool).
Hypothesis leb_total : forall x y, leb x y = true \/ leb y x = true.
Hypothesis leb_trans :
  forall x y z, leb x y = true -> leb y z = true -> leb x z = true.

Lemma fold_min_spec (l : list A) (t : A) :
  let m := fold_left (fun a b => if leb a b then a else b) l t in
  (m = t \/ In m l)
  /\ leb m t = true
  /\ forall x, In x l -> leb m x = true.
Proof.
  revert t. induction l as [|b l IH]; intros t; simpl.
  - split; [left; reflexivity|]. split; [|intros x []].
    destruct (leb_total t t); assumption.
  - destruct (IH (if leb t b then t else b)) as (Hm & Hle & Hall).
    assert (Ht : leb (if leb t b then t else b) t = true
                 /\ leb (if leb t b then t else b) b = true).
    { destruct (leb t b) eqn:E.
      - split; [destruct (leb_total t t); assumption|exact E].
      - split; [destruct (leb_total t b); [congruence|assumption]
               |destruct (leb_total b b); assumption]. }
    destruct Ht as [Ht Hb].
    split; [|split].
    + destruct Hm as [Hm|Hm]; [|right; right; exact Hm].
      rewrite Hm. destruct (leb t b); [left|right; left]; reflexivity.
    + eapply leb_trans; [exact Hle|exact Ht].
    + intros x [Hx|Hx]; [subst x; eapply leb_trans; [exact Hle|exact Hb]|].
      apply Hall. exact Hx.
Qed.

Lemma fold_max_spec (l : list A) (t : A) :
  let m := fold_left (fun a b => if leb a b then b else a) l t in
  (m = t \/ In m l)
  /\ leb t m = true
  /\ forall x, In x l -> leb x m = true.
Proof.
  revert t. induction l as [|b l IH]; intros t; simpl.
  - split; [left; reflexivity|]. split; [|intros x []].
    destruct (leb_total t t); assumption.
  - destruct (IH (if leb t b then b else t)) as (Hm & Hle & Hall).
    assert (Ht : leb t (if leb t b then b else t) = true
                 /\ leb b (if leb t b then b else t) = true).
    { destruct (leb t b) eqn:E.
      - split; [exact E|destruct (leb_total b b); assumption].
      - split; [destruct (leb_total t t); assumption
               |destruct (leb_total t b); [congruence|assumption]]. }
    destruct Ht as [Ht Hb].
    split; [|split].
    + destruct Hm as [Hm|Hm]; [|right; right; exact Hm].
      rewrite Hm. destruct (leb t b); [right; left|left]; reflexivity.
    + eapply leb_trans; [exact Ht|exact Hle].
    + intros x [Hx|Hx]; [subst x; eapply leb_trans; [exact Hb|exact Hle]|].
      apply Hall. exact Hx.
Qed.

End FoldMinMax.

(** X13.  The period metric of the data page raises [ValueError] exactly
    when no row of the filtered table has a date; otherwise it shows the
    month and year of the earliest and of the latest date. *)
Theorem periodo_outcome (df : DataFrame) :
  (periodo df = Res.Err ValueError <-> datas_validas df = [])
  /\ (datas_validas df <> [] ->
      exists t0 t1,
        In t0 (datas_validas df) /\ In t1 (datas_validas df)
        /\ (forall t, In t (datas_validas df) ->
                      ts_leb t0 t = true /\ ts_leb t t1 = true)
        /\ periodo df =
             Res.Val ((pad2 (month t0) ++ "/" ++ str_int (year t0))
                      ++ " - "
                      ++ (pad2 (month t1) ++ "/" ++ str_int (year t1)))).
Proof.
  unfold periodo, data_min, data_max.
  destruct (datas_validas df) as [|t l] eqn:E.
  - split; [split; reflexivity|]. intros H. contradiction.
  - split; [split; intros H; discriminate H|]. intros _.
    destruct (fold_min_spec ts_leb ts_leb_total ts_leb_trans l t)
      as (Hm & Hmt & Hmall).
    destruct (fold_max_spec ts_leb ts_leb_total ts_leb_trans l t)
      as (HM & HMt & HMall).
    eexists. eexists.
    split; [|split; [|split; [|reflexivity]]].
    + destruct Hm as [Hm|Hm]; [left; symmetry; exact Hm|right; exact Hm].
    + destruct HM as [HM|HM]; [left; symmetry; exact HM|right; exact HM].
    + intros x [Hx|Hx].
      * subst x. split; assumption.
      * split; [apply Hmall|apply HMall]; exact Hx.
Qed.

Lemma periodo_outcome_witness :
  exists t0 t1,
    In t0 (datas_validas tabela_cenario) /\ In t1 (datas_validas tabela_cenario)
    /\ (forall t, In t (datas_validas tabela_cenario) ->
                  ts_leb t0 t = true /\ ts_leb t t1 = true)
    /\ periodo tabela_cenario =
         Res.Val ((pad2 (month t0) ++ "/" ++ str_int (year t0))
                  ++ " - "
                  ++ (pad2 (month t1) ++ "/" ++ str_int (year t1))).
Proof.
  apply (proj2 (periodo_outcome tabela_cenario)). discriminate.
Defined.

(** X14.  With an empty selection on any dimension the pages do not all
    behave alike: the period metric raises [ValueError] and the total growth
    of the temporal analysis raises [IndexError], while the product matrix
    and the regional growth are computed and are empty. *)
Theorem paginas_empty_selection (df : DataFrame) (sel : FilterSelection) :
  anos_selecionados sel = []
  \/ regioes_selecionadas sel = []
  \/ produtos_selecionados sel = [] ->
  periodo (df_filtrado df sel) = Res.Err ValueError
  /\ crescimento_total (vendas_mensais (df_filtrado df sel)) =
       Res.Err IndexError
  /\ cores_dos_produtos (df_filtrado df sel) = Res.Val []
  /\ crescimento_regional (df_filtrado df sel) = [].
Proof.
  intros H. rewrite (df_filtrado_nil df sel H).
  repeat split.
Qed.

Lemma paginas_empty_selection_witness :
  let vazio :=
    df_filtrado tabela_cenario (mkSelection [] ["A"; "B"] ["Mouse"]) in
  periodo vazio = Res.Err ValueError
  /\ crescimento_total (vendas_mensais vazio) = Res.Err IndexError
  /\ cores_dos_produtos vazio = Res.Val []
  /\ crescimento_regional vazio = [].
Proof.
  apply (paginas_empty_selection tabela_cenario).
  left. reflexivity.
Defined.

(** X15.  In the regional metrics table the growth column is the regional
    growth rounded to one decimal for the regions that have a row of 2023 or
    of 2024, and NaN for the regions of the filtered table that have rows of
    other years only: the [fillna(0)] applied before does not reach them. *)
Theorem coluna_crescimento_yoy_values (df : DataFrame) :
  coluna_crescimento_yoy df =
  map (fun k =>
         (k, if tem_regiao_ano df k 2023 || tem_regiao_ano df k 2024
             then round (crescimento_da_regiao df k) 1
             else nan))
      (regioes_disponiveis df).
Proof.
  unfold coluna_crescimento_yoy. rewrite groupby_keys.
  fold (regioes_disponiveis df).
  apply map_ext. intros k. f_equal.
  destruct (crescimento_regional_keyed df) as [E Hidx].
  unfold loc_nan, round_serie. rewrite E, map_map. cbn [fst snd].
  rewrite (find_keyed (fun k' => round (crescimento_da_regiao df k') 1)).
  match goal with
  | |- context [existsb (String.eqb k) ?i] =>
      assert (Hb : existsb (String.eqb k) i =
                   tem_regiao_ano df k 2023 || tem_regiao_ano df k 2024)
  end.
  { apply eq_true_iff_eq.
    rewrite (existsb_eqb_In String.eqb Seqb_spec'), Hidx, orb_true_iff.
    reflexivity. }
  rewrite Hb.
  destruct (tem_regiao_ano df k 2023 || tem_regiao_ano df k 2024); reflexivity.
Qed.
